(** * Aria e-commerce agent: the in-memory data store

    A shallow embedding of [src/data/store.ts] (class [EcommerceDataStore]),
    of the records of [src/data/models.ts] and of the uniqueness checks of
    [src/mastra/tools/products/add-product.ts].

    Modelling conventions.
    - A JavaScript [Map<string, V>] iterates in insertion order, [set] on a
      present key replaces the value in place, [set] on an absent key appends:
      it is an association list ([JS.map_set], [JS.map_get], ...).
    - A [Set<string>] is a duplicate-free list in insertion order.
    - Quantities and stock levels are integers ([Z]); the code holds them in
      IEEE doubles, whose additions and subtractions of integers are exact
      while the operands and the result stay below [2^53] in magnitude
      ([JS.safe]).  [Date] values are their millisecond time stamps ([Z]).
    - Currency amounts are exact rationals ([Qc]).  The code adds doubles, so
      a statement that compares or equates two differently accumulated sums
      is made under [Spec.exact_sums] (whole amounts of bounded total, on
      which the doubles' additions are exact); statements about one left
      fold, or about the structure of a result, need no such proviso.
    - A string is the sequence of the bytes of its UTF-8 encoding.  The case
      folding of [String.prototype.toLowerCase] is a parameter [lower] of the
      lookups that use it ([getProductByName_with], [getAllProducts_with]);
      [JS.toLowerCase], which folds the ASCII letters, is the instance used
      where a result is computed on ASCII text.
    - [new Date()], [Date.now()] and [Math.random()] are inputs: every
      operation that reads the clock takes [now], every operation that draws
      an identifier takes the random suffix [rnd].
    - [updateStock] assigns to the product object held by the map; no two map
      entries share an object (every entry is created by [addProduct],
      [updateProduct] or keyed by its own id in [importData]), so the
      assignment is a replacement of that entry's value in place. *)

From Stdlib Require Import List String Ascii ZArith QArith Qcanon Bool Lia.
From Stdlib Require Import Permutation Sorted DecimalString.
Import ListNotations.

Open Scope string_scope.
Open Scope list_scope.
Open Scope Z_scope.

(** ** Records of [models.ts] *)

Module Dimensions.
Record t := mk { length : Qc; width : Qc; height : Qc }.
End Dimensions.

Module Address.
Record t := mk
  { street : string; city : string; state : string;
    zipCode : string; country : string }.
End Address.

Module Product.
Record t := mk
  { id : string;
    name : string;
    description : string;
    price : Qc;
    category : string;
    subcategory : option string;
    collection : option string;
    stock : Z;
    isVisible : bool;
    tags : list string;
    sku : option string;
    images : option (list string);
    weight : option Qc;
    dimensions : option Dimensions.t;
    createdAt : Z;
    updatedAt : Z }.

Definition with_stock (n : Z) (now : Z) (p : t) : t :=
  mk (id p) (name p) (description p) (price p) (category p) (subcategory p)
     (collection p) n (isVisible p) (tags p) (sku p) (images p) (weight p)
     (dimensions p) (createdAt p) now.

Definition with_identity (i : string) (now : Z) (p : t) : t :=
  mk i (name p) (description p) (price p) (category p) (subcategory p)
     (collection p) (stock p) (isVisible p) (tags p) (sku p) (images p)
     (weight p) (dimensions p) now now.
End Product.

Inductive SaleStatus := pending | processing | shipped | delivered | cancelled.

Module Sale.
Record t := mk
  { id : string;
    productId : string;
    productName : string;
    quantity : Z;
    unitPrice : Qc;
    totalAmount : Qc;
    customerEmail : string;
    customerName : option string;
    shippingAddress : option Address.t;
    status : SaleStatus;
    paymentMethod : string;
    timestamp : Z }.

Definition with_id (i : string) (s : t) : t :=
  mk i (productId s) (productName s) (quantity s) (unitPrice s)
     (totalAmount s) (customerEmail s) (customerName s) (shippingAddress s)
     (status s) (paymentMethod s) (timestamp s).
End Sale.

Module DateRange.
Record t := mk { start : Z; end_ : Z }.
End DateRange.

Module StockOperation.
Record t := mk { operation : string; quantity : Z; reason : option string }.
End StockOperation.

(** [Partial<Omit<Product, 'id' | 'createdAt'>>]: [None] is an absent key. *)
Module ProductUpdates.
Record t := mk
  { name : option string;
    description : option string;
    price : option Qc;
    category : option string;
    subcategory : option (option string);
    collection : option (option string);
    stock : option Z;
    isVisible : option bool;
    tags : option (list string);
    sku : option (option string);
    images : option (option (list string));
    weight : option (option Qc);
    dimensions : option (option Dimensions.t);
    updatedAt : option Z }.

Definition none : t :=
  mk None None None None None None None None None None None None None None.
End ProductUpdates.

Module ProductFilters.
Record t := mk
  { category : option string;
    collection : option string;
    tag : option string;
    priceMin : option Qc;
    priceMax : option Qc;
    inStock : option bool;
    visible : option bool }.

Definition none : t := mk None None None None None None None.
End ProductFilters.

Module StoreMetrics.
Record top := mkTop { id : string; name : string; sales : Qc }.
Record alert := mkAlert { a_id : string; a_name : string; stock : Z }.
Record period := mkPeriod { daily : Qc; weekly : Qc; monthly : Qc }.
Record cat := mkCat { category : string; revenue : Qc; orders : Z }.
Record t := mk
  { totalSales : Qc;
    totalOrders : nat;
    avgOrderValue : Qc;
    topProducts : list top;
    lowStockAlerts : list alert;
    revenueByPeriod : period;
    categoryPerformance : list cat }.
End StoreMetrics.

(** ** The JavaScript library functions the store uses *)

Module JS.

(** [String.prototype.toLowerCase] on ASCII text: the letters A to Z are
    folded, every other byte is kept. *)
Definition lower_ascii (c : ascii) : ascii :=
  let n := nat_of_ascii c in
  if (Nat.leb 65 n && Nat.leb n 90)%bool then ascii_of_nat (n + 32) else c.

Fixpoint toLowerCase (s : string) : string :=
  match s with
  | EmptyString => EmptyString
  | String c s' => String (lower_ascii c) (toLowerCase s')
  end.

(** [s.includes(t)]: [t] occurs in [s] as a contiguous substring. *)
Fixpoint includes (s t : string) : bool :=
  if String.prefix t s then true
  else match s with
       | EmptyString => false
       | String _ s' => includes s' t
       end.

(** Truthiness of an optional string: present and not empty. *)
Definition truthy (o : option string) : bool :=
  match o with
  | Some EmptyString => false
  | Some _ => true
  | None => false
  end.

(** [`${n}`] for an integer. *)
Definition show (n : Z) : string := NilZero.string_of_int (Z.to_int n).

Section Map.
Context {V : Type}.

Fixpoint map_get (k : string) (m : list (string * V)) : option V :=
  match m with
  | [] => None
  | (k', v) :: m' => if String.eqb k k' then Some v else map_get k m'
  end.

Fixpoint map_set (k : string) (v : V) (m : list (string * V))
  : list (string * V) :=
  match m with
  | [] => [(k, v)]
  | (k', v') :: m' =>
      if String.eqb k k' then (k', v) :: m' else (k', v') :: map_set k v m'
  end.

Fixpoint map_delete (k : string) (m : list (string * V))
  : list (string * V) :=
  match m with
  | [] => []
  | (k', v') :: m' =>
      if String.eqb k k' then m' else (k', v') :: map_delete k m'
  end.

Definition map_has (k : string) (m : list (string * V)) : bool :=
  match map_get k m with Some _ => true | None => false end.

Definition map_values (m : list (string * V)) : list V := List.map snd m.
Definition map_keys (m : list (string * V)) : list string := List.map fst m.
End Map.

(** [Set.prototype.add]. *)
Definition set_add (x : string) (s : list string) : list string :=
  if existsb (String.eqb x) s then s else s ++ [x].

(** [Array.prototype.sort(cmp)] is stable; [after a b] says [cmp(a, b) > 0],
    that is, [a] has to come after [b]. *)
Section Sort.
Context {A : Type} (after : A -> A -> bool).

Fixpoint insert (x : A) (l : list A) : list A :=
  match l with
  | [] => [x]
  | y :: l' => if after x y then y :: insert x l' else x :: l
  end.

Definition sort (l : list A) : list A := fold_right insert [] l.
End Sort.

(** [Array.prototype.slice(0, end)] for an integer [end]: a negative [end]
    counts from the end of the array. *)
Definition slice0 {A : Type} (e : Z) (l : list A) : list A :=
  if e <? 0 then firstn (Z.to_nat (Z.max (Z.of_nat (List.length l) + e) 0)) l
  else firstn (Z.to_nat e) l.

Definition Qcltb (a b : Qc) : bool :=
  match (a ?= b)%Qc with Lt => true | _ => false end.

Definition Qcleb (a b : Qc) : bool :=
  match (a ?= b)%Qc with Gt => false | _ => true end.

(** An integer on which the arithmetic of doubles is exact:
    [Number.isSafeInteger]. *)
Definition safe (n : Z) : Prop := Z.abs n < 2 ^ 53.

(** The value of an optional string when it is truthy. *)
Definition truthy_value (o : option string) : option string :=
  match o with
  | Some EmptyString => None
  | Some s => Some s
  | None => None
  end.

(** An index of [slice], made relative to an array of length [len]. *)
Definition rel_index (i len : Z) : Z :=
  if i <? 0 then Z.max (len + i) 0 else Z.min i len.

(** [Array.prototype.slice(start, end)] for integers. *)
Definition slice {A : Type} (s e : Z) (l : list A) : list A :=
  let len := Z.of_nat (List.length l) in
  let k := rel_index s len in
  let final := rel_index e len in
  firstn (Z.to_nat (final - k)) (skipn (Z.to_nat k) l).

(** The double quote character, as a string. *)
Definition quote : string := String (ascii_of_nat 34) EmptyString.

(** The warning sign followed by its emoji variation selector, as the bytes
    of its UTF-8 encoding. *)
Definition warning : string :=
  string_of_list_ascii
    (List.map ascii_of_nat [226; 154; 160; 239; 184; 143]%nat).

(** Concatenation of the pieces of a template literal. *)
Definition template (pieces : list string) : string :=
  fold_right String.append EmptyString pieces.

End JS.

(** ** Sample data of [store.ts] *)

Module Sample.

Definition money (cents : Z) : Qc := Q2Qc (Qmake cents 100).
Definition num (n : Z) : Qc := Q2Qc (inject_Z n).
Definition dims (l w h : Z) : option Dimensions.t :=
  Some (Dimensions.mk (num l) (num w) (num h)).

Definition sampleProducts : list Product.t :=
  [ Product.mk "12345" "Blue T-Shirt"
      "Comfortable cotton t-shirt in vibrant blue color"
      (money 1999) "Clothing" None (Some "Summer Collection") 25 true
      ["casual"; "cotton"; "blue"; "t-shirt"] (Some "BTS-001")
      (Some ["blue-tshirt-1.jpg"; "blue-tshirt-2.jpg"])
      (Some (money 20)) (dims 70 50 1) 1705276800000 1717200000000;
    Product.mk "12346" "Leather Jacket"
      "Premium genuine leather jacket with modern fit"
      (money 24999) "Clothing" None (Some "Winter Collection") 8 true
      ["leather"; "jacket"; "premium"; "winter"] (Some "LJ-002")
      (Some ["leather-jacket-1.jpg"])
      (Some (money 150)) (dims 65 55 3) 1706745600000 1715731200000;
    Product.mk "12347" "Wireless Headphones"
      "High-quality wireless headphones with noise cancellation"
      (money 19999) "Electronics" None (Some "Tech Essentials") 0 true
      ["wireless"; "headphones"; "audio"; "noise-cancellation"]
      (Some "WH-003")
      (Some ["wireless-headphones-1.jpg"; "wireless-headphones-2.jpg"])
      (Some (money 30)) (dims 20 18 8) 1710028800000 1717545600000;
    Product.mk "12348" "Running Shoes"
      "Lightweight running shoes with superior comfort"
      (money 12999) "Footwear" None (Some "Athletic Collection") 30 true
      ["running"; "shoes"; "athletic"; "comfortable"] (Some "RS-004")
      (Some ["running-shoes-1.jpg"])
      (Some (money 80)) (dims 30 15 12) 1705708800000 1716163200000;
    Product.mk "12349" "Winter Scarf"
      "Warm wool scarf perfect for cold weather"
      (money 3499) "Accessories" None (Some "Winter Collection") 5 true
      ["scarf"; "wool"; "winter"; "warm"] (Some "WS-005")
      (Some ["winter-scarf-1.jpg"])
      (Some (money 15)) (dims 180 30 1) 1707955200000 1716595200000;
    Product.mk "12350" "Classic Jeans"
      "Timeless denim jeans with perfect fit"
      (money 7999) "Clothing" None (Some "Essentials") 40 true
      ["jeans"; "denim"; "classic"; "essentials"] (Some "CJ-006")
      (Some ["classic-jeans-1.jpg"])
      (Some (money 60)) (dims 110 40 2) 1704844800000 1717027200000 ].

Definition hour : Z := 60 * 60 * 1000.

(** [loaded] is [Date.now()] when the module is evaluated. *)
Definition sampleSales (loaded : Z) : list Sale.t :=
  [ Sale.mk "sale-001" "12345" "Blue T-Shirt" 3 (money 1999) (money 5997)
      "john@example.com" (Some "John Doe") None delivered "credit_card"
      (loaded - 24 * hour);
    Sale.mk "sale-002" "12348" "Running Shoes" 1 (money 12999) (money 12999)
      "sarah@example.com" (Some "Sarah Johnson") None shipped "paypal"
      (loaded - 24 * hour);
    Sale.mk "sale-003" "12349" "Winter Scarf" 2 (money 3499) (money 6998)
      "mike@example.com" (Some "Mike Wilson") None processing "credit_card"
      (loaded - 24 * hour);
    Sale.mk "sale-004" "12346" "Leather Jacket" 1 (money 24999) (money 24999)
      "emma@example.com" (Some "Emma Brown") None pending "credit_card"
      (loaded - 2 * hour);
    Sale.mk "sale-005" "12345" "Blue T-Shirt" 5 (money 1999) (money 9995)
      "alex@example.com" (Some "Alex Garcia") None delivered "debit_card"
      (loaded - 7 * 24 * hour) ].

End Sample.

(** ** [EcommerceDataStore] *)

Module Store.

Record t := mk
  { products : list (string * Product.t);
    sales : list Sale.t;
    categories : list string;
    collections : list string }.

(** The wall clock as [getSalesAnalytics] reads it: [now], local midnight of
    today, the Sunday that starts this week, the first of this month. *)
Record calendar := mkCalendar
  { now : Z; today : Z; thisWeekStart : Z; thisMonthStart : Z }.

Definition empty : t := mk [] [] [] [].

(** [categories.add(product.category)] and, for a truthy collection,
    [collections.add(product.collection)]. *)
Definition track (product : Product.t) (st : t) : t :=
  mk (products st)
     (sales st)
     (JS.set_add (Product.category product) (categories st))
     (if JS.truthy (Product.collection product)
      then match Product.collection product with
           | Some c => JS.set_add c (collections st)
           | None => collections st
           end
      else collections st).

Definition with_sales (l : list Sale.t) (st : t) : t :=
  mk (products st) l (categories st) (collections st).

Definition with_products (m : list (string * Product.t)) (st : t) : t :=
  mk m (sales st) (categories st) (collections st).

(** Body of the [forEach] shared by [initializeWithSampleData] and
    [importData]. *)
Definition load (st : t) (product : Product.t) : t :=
  track product
    (with_products (JS.map_set (Product.id product) product (products st)) st).

(** The objects of [sampleProducts] are shared by every store loaded from
    them and [updateStock] assigns to them while they sit in a store's map,
    so their current field values [samples] are an input;
    [Sample.sampleProducts] is their value when the module is evaluated. *)
Definition initializeWithSampleData (samples : list Product.t) (loaded : Z)
                                    (st : t) : t :=
  with_sales (Sample.sampleSales loaded) (fold_left load samples st).

(** [new EcommerceDataStore()] *)
Definition create (samples : list Product.t) (loaded : Z) : t :=
  initializeWithSampleData samples loaded empty.

Definition getProduct (st : t) (id : string) : option Product.t :=
  JS.map_get id (products st).

(** [getProductByName], the case folding of [toLowerCase] being [lower]. *)
Definition getProductByName_with (lower : string -> string) (st : t)
                                 (name : string) : option Product.t :=
  find (fun product =>
          JS.includes (lower (Product.name product)) (lower name))
       (JS.map_values (products st)).

Definition getProductByName (st : t) (name : string) : option Product.t :=
  getProductByName_with JS.toLowerCase st name.

Definition getProductBySku (st : t) (sku : string) : option Product.t :=
  find (fun product =>
          match Product.sku product with
          | Some s => String.eqb s sku
          | None => false
          end)
       (JS.map_values (products st)).

Definition genId (prefix : string) (now : Z) (rnd : string) : string :=
  String.append prefix
    (String.append "-" (String.append (JS.show now) (String.append "-" rnd))).

Definition addProduct (productData : Product.t) (now : Z) (rnd : string)
                      (st : t) : Product.t * t :=
  let newProduct := Product.with_identity (genId "prod" now rnd) now productData in
  (newProduct, load st newProduct).

Definition orElse {A : Type} (o : option A) (d : A) : A :=
  match o with Some x => x | None => d end.

(** [{ ...product, ...updates, updatedAt: new Date() }] *)
Definition spread (product : Product.t) (u : ProductUpdates.t) (now : Z)
  : Product.t :=
  Product.mk
    (Product.id product)
    (orElse (ProductUpdates.name u) (Product.name product))
    (orElse (ProductUpdates.description u) (Product.description product))
    (orElse (ProductUpdates.price u) (Product.price product))
    (orElse (ProductUpdates.category u) (Product.category product))
    (orElse (ProductUpdates.subcategory u) (Product.subcategory product))
    (orElse (ProductUpdates.collection u) (Product.collection product))
    (orElse (ProductUpdates.stock u) (Product.stock product))
    (orElse (ProductUpdates.isVisible u) (Product.isVisible product))
    (orElse (ProductUpdates.tags u) (Product.tags product))
    (orElse (ProductUpdates.sku u) (Product.sku product))
    (orElse (ProductUpdates.images u) (Product.images product))
    (orElse (ProductUpdates.weight u) (Product.weight product))
    (orElse (ProductUpdates.dimensions u) (Product.dimensions product))
    (Product.createdAt product)
    now.

Definition updateProduct (id : string) (updates : ProductUpdates.t) (now : Z)
                         (st : t) : option Product.t * t :=
  match JS.map_get id (products st) with
  | None => (None, st)
  | Some product =>
      let updatedProduct := spread product updates now in
      (Some updatedProduct,
       track updatedProduct
         (with_products (JS.map_set id updatedProduct (products st)) st))
  end.

Definition deleteProduct (id : string) (st : t) : bool * t :=
  (JS.map_has id (products st),
   with_products (JS.map_delete id (products st)) st).

Definition updateStock (productId : string) (stockOperation : StockOperation.t)
                       (now : Z) (st : t) : bool * t :=
  match JS.map_get productId (products st) with
  | None => (false, st)
  | Some product =>
      let q := StockOperation.quantity stockOperation in
      let op := StockOperation.operation stockOperation in
      let commit newStock :=
        (true,
         with_products
           (JS.map_set productId (Product.with_stock newStock now product)
                       (products st)) st) in
      if String.eqb op "add" then commit (Product.stock product + q)
      else if String.eqb op "subtract" then
        commit (Z.max 0 (Product.stock product - q))
      else if String.eqb op "set" then commit (Z.max 0 q)
      else (false, st)
  end.

Definition getLowStockProducts (threshold : Z) (st : t) : list Product.t :=
  filter (fun p => (Product.stock p <=? threshold) && (0 <? Product.stock p))%bool
         (JS.map_values (products st)).

Definition getStockLevel (st : t) (productId : string) : Z :=
  match JS.map_get productId (products st) with
  | Some product => Product.stock product
  | None => -1
  end.

Definition addSale (saleData : Sale.t) (now : Z) (rnd : string) (st : t)
  : Sale.t * t :=
  let newSale := Sale.with_id (genId "sale" now rnd) saleData in
  let st1 := with_sales (sales st ++ [newSale]) st in
  let '(_, st2) :=
    updateStock (Sale.productId saleData)
      (StockOperation.mk "subtract" (Sale.quantity saleData)
         (Some (String.append "Sale: " (Sale.id newSale))))
      now st1 in
  (newSale, st2).

Definition in_range (start end_ : Z) (sale : Sale.t) : bool :=
  ((start <=? Sale.timestamp sale) && (Sale.timestamp sale <=? end_))%bool.

Definition getSalesByDateRange (st : t) (start end_ : Z) : list Sale.t :=
  filter (in_range start end_) (sales st).

Definition selected (st : t) (dateRange : option DateRange.t) : list Sale.t :=
  match dateRange with
  | Some r => getSalesByDateRange st (DateRange.start r) (DateRange.end_ r)
  | None => sales st
  end.


(** [salesData.reduce((sum, sale) => sum + sale.totalAmount, 0)] *)
Definition revenue (salesData : list Sale.t) : Qc :=
  fold_left (fun sum sale => (sum + Sale.totalAmount sale)%Qc) salesData 0%Qc.

(** The [productSales] map of [getSalesAnalytics]: product id to the name
    snapshot of the first sale seen and the summed [totalAmount]. *)
Definition productSales_step (m : list (string * (string * Qc)))
                             (sale : Sale.t) : list (string * (string * Qc)) :=
  match JS.map_get (Sale.productId sale) m with
  | Some (n, s) =>
      JS.map_set (Sale.productId sale) (n, (s + Sale.totalAmount sale)%Qc) m
  | None =>
      JS.map_set (Sale.productId sale)
                 (Sale.productName sale, Sale.totalAmount sale) m
  end.

Definition productSales (salesData : list Sale.t)
  : list (string * (string * Qc)) :=
  fold_left productSales_step salesData [].

(** [cmp(a, b) = b.sales - a.sales > 0] *)
Definition top_after (a b : StoreMetrics.top) : bool :=
  JS.Qcltb (StoreMetrics.sales a) (StoreMetrics.sales b).

(** [.map(([id, data]) => ({ id, name: data.name, sales: data.sales }))] *)
Definition as_tops (m : list (string * (string * Qc))) : list StoreMetrics.top :=
  List.map (fun '(id, (n, s)) => StoreMetrics.mkTop id n s) m.

Definition topProducts (salesData : list Sale.t) : list StoreMetrics.top :=
  JS.slice0 5 (JS.sort top_after (as_tops (productSales salesData))).

(** The [categoryStats] map: category of the product a sale resolves to,
    to summed revenue and number of orders. *)
Definition categoryStats_step (st : t) (m : list (string * (Qc * Z)))
                              (sale : Sale.t) : list (string * (Qc * Z)) :=
  match getProduct st (Sale.productId sale) with
  | Some product =>
      match JS.map_get (Product.category product) m with
      | Some (r, o) =>
          JS.map_set (Product.category product)
                     ((r + Sale.totalAmount sale)%Qc, o + 1) m
      | None =>
          JS.map_set (Product.category product) (Sale.totalAmount sale, 1) m
      end
  | None => m
  end.

Definition categoryStats (st : t) (salesData : list Sale.t)
  : list (string * (Qc * Z)) :=
  fold_left (categoryStats_step st) salesData [].

Definition cat_after (a b : StoreMetrics.cat) : bool :=
  JS.Qcltb (StoreMetrics.revenue a) (StoreMetrics.revenue b).

(** [.map(([category, stats]) => ({ category, ...stats }))] *)
Definition as_cats (m : list (string * (Qc * Z))) : list StoreMetrics.cat :=
  List.map (fun '(c, (r, o)) => StoreMetrics.mkCat c r o) m.

Definition categoryPerformance (st : t) (salesData : list Sale.t)
  : list StoreMetrics.cat :=
  JS.sort cat_after (as_cats (categoryStats st salesData)).

Definition getSalesAnalytics (st : t) (clock : calendar)
                             (dateRange : option DateRange.t) : StoreMetrics.t :=
  let salesData := selected st dateRange in
  let totalSales := revenue salesData in
  let totalOrders := List.length salesData in
  let avgOrderValue :=
    if (0 <? Z.of_nat totalOrders)
    then (totalSales / Q2Qc (inject_Z (Z.of_nat totalOrders)))%Qc
    else 0%Qc in
  let dailySales := getSalesByDateRange st (today clock) (now clock) in
  let weeklySales := getSalesByDateRange st (thisWeekStart clock) (now clock) in
  let monthlySales := getSalesByDateRange st (thisMonthStart clock) (now clock) in
  StoreMetrics.mk
    totalSales totalOrders avgOrderValue
    (topProducts salesData)
    (List.map (fun p => StoreMetrics.mkAlert (Product.id p) (Product.name p)
                                             (Product.stock p))
              (getLowStockProducts 10 st))
    (StoreMetrics.mkPeriod (revenue dailySales) (revenue weeklySales)
                           (revenue monthlySales))
    (categoryPerformance st salesData).







Definition exportData (st : t) : list Product.t * list Sale.t :=
  (JS.map_values (products st), sales st).

Definition importData (data : list Product.t * list Sale.t) (st : t) : t :=
  with_sales (snd data) (fold_left load (fst data) empty).

Definition reset (samples : list Product.t) (loaded : Z) (st : t) : t :=
  initializeWithSampleData samples loaded empty.

(** [s.toLowerCase().includes(fragment.toLowerCase())], the case folding of
    [toLowerCase] being [lower]. *)
Definition lower_includes_with (lower : string -> string) (s fragment : string)
  : bool :=
  JS.includes (lower s) (lower fragment).

Definition lower_includes (s fragment : string) : bool :=
  lower_includes_with JS.toLowerCase s fragment.

(** [p.collection?.toLowerCase().includes(...)]: falsy without a collection. *)
Definition collection_includes_with (lower : string -> string) (p : Product.t)
                                    (fragment : string) : bool :=
  match Product.collection p with
  | Some c => lower_includes_with lower c fragment
  | None => false
  end.

Definition collection_includes (p : Product.t) (fragment : string) : bool :=
  collection_includes_with JS.toLowerCase p fragment.

Definition tag_includes_with (lower : string -> string) (p : Product.t)
                             (fragment : string) : bool :=
  existsb (fun tag => lower_includes_with lower tag fragment) (Product.tags p).

Definition tag_includes (p : Product.t) (fragment : string) : bool :=
  tag_includes_with JS.toLowerCase p fragment.

(** [getAllProducts], the case folding of [toLowerCase] being [lower]. *)
Definition getAllProducts_with (lower : string -> string) (st : t)
                               (filters : option ProductFilters.t)
  : list Product.t :=
  let products := JS.map_values (products st) in
  match filters with
  | None => products
  | Some f =>
      let products :=
        match JS.truthy_value (ProductFilters.category f) with
        | Some c => filter (fun p => lower_includes_with lower (Product.category p) c) products
        | None => products
        end in
      let products :=
        match JS.truthy_value (ProductFilters.collection f) with
        | Some c => filter (fun p => collection_includes_with lower p c) products
        | None => products
        end in
      let products :=
        match JS.truthy_value (ProductFilters.tag f) with
        | Some g => filter (fun p => tag_includes_with lower p g) products
        | None => products
        end in
      let products :=
        match ProductFilters.priceMin f with
        | Some lo => filter (fun p => JS.Qcleb lo (Product.price p)) products
        | None => products
        end in
      let products :=
        match ProductFilters.priceMax f with
        | Some hi => filter (fun p => JS.Qcleb (Product.price p) hi) products
        | None => products
        end in
      let products :=
        match ProductFilters.inStock f with
        | Some b =>
            filter (fun p => if b then 0 <? Product.stock p
                             else Product.stock p =? 0) products
        | None => products
        end in
      let products :=
        match ProductFilters.visible f with
        | Some v => filter (fun p => Bool.eqb (Product.isVisible p) v) products
        | None => products
        end in
      products
  end.

Definition getAllProducts (st : t) (filters : option ProductFilters.t)
  : list Product.t :=
  getAllProducts_with JS.toLowerCase st filters.

Definition getOutOfStockProducts (st : t) : list Product.t :=
  filter (fun p => Product.stock p =? 0) (JS.map_values (products st)).

Definition searchProducts (st : t) (query : string) : list Product.t :=
  let searchTerm := JS.toLowerCase query in
  filter (fun product =>
            JS.includes (JS.toLowerCase (Product.name product)) searchTerm
            || JS.includes (JS.toLowerCase (Product.description product)) searchTerm
            || JS.includes (JS.toLowerCase (Product.category product)) searchTerm
            || existsb (fun tag => JS.includes (JS.toLowerCase tag) searchTerm)
                       (Product.tags product)
            || match JS.truthy_value (Product.sku product) with
               | Some sku => JS.includes (JS.toLowerCase sku) searchTerm
               | None => false
               end)%bool
         (JS.map_values (products st)).

Definition getProductsByCategory (st : t) (category : string) : list Product.t :=
  filter (fun p => lower_includes (Product.category p) category)
         (JS.map_values (products st)).

Definition getProductsByCollection (st : t) (collection : string)
  : list Product.t :=
  filter (fun p => collection_includes p collection)
         (JS.map_values (products st)).

Definition getProductsByTag (st : t) (tag : string) : list Product.t :=
  filter (fun p => tag_includes p tag) (JS.map_values (products st)).

Definition getCategories (st : t) : list string := categories st.

Definition getCollections (st : t) : list string := collections st.

Definition getProductCount (st : t) : nat := List.length (products st).

End Store.

(** ** The caller-facing product creation of [add-product.ts] *)

Module Tools.

Inductive error :=
| DuplicateSKU (sku existing : string)
| DuplicateName (name : string).

(** [addNewProduct.execute], on an input accepted by the input schema. *)
Definition createProduct (productData : Product.t) (now : Z) (rnd : string)
                         (st : Store.t) : error + Product.t * Store.t :=
  let bySku :=
    if JS.truthy (Product.sku productData)
    then match Product.sku productData with
         | Some sku => Store.getProductBySku st sku
         | None => None
         end
    else None in
  match bySku with
  | Some existingProduct =>
      inl (DuplicateSKU (Store.orElse (Product.sku productData) EmptyString)
                        (Product.name existingProduct))
  | None =>
      match Store.getProductByName st (Product.name productData) with
      | Some _ => inl (DuplicateName (Product.name productData))
      | None => inr (Store.addProduct productData now rnd st)
      end
  end.

(** *** Identifier routing, shared by [getProduct], [getProductStock] and
    [updateInventory] *)

Inductive failure :=
| NotFound (identifierType identifier : string)
| UpdateFailed (productName : string).

(** The [switch (identifierType)] of the three tools: ['id'], ['sku'], and
    ['name'] together with [default]. *)
Definition lookup (st : Store.t) (identifier identifierType : string)
  : option Product.t :=
  if String.eqb identifierType "id" then Store.getProduct st identifier
  else if String.eqb identifierType "sku" then Store.getProductBySku st identifier
  else Store.getProductByName st identifier.

(** [getProduct.execute] (the tool), before the dates are printed. *)
Definition getProduct (identifier identifierType : string) (st : Store.t)
  : failure + Product.t :=
  match lookup st identifier identifierType with
  | Some product => inr product
  | None => inl (NotFound identifierType identifier)
  end.

(** *** The [updateInventory] tool *)

Record inventoryResult := mkInventoryResult
  { success : bool;
    productId : string;
    productName : string;
    previousStock : Z;
    newStock : Z;
    operation : string;
    quantity : Z;
    reason : option string;
    message : string }.

Definition inventoryMessage (operation productName : string)
                            (quantity previousStock newStock : Z) : string :=
  let message :=
    if String.eqb operation "add" then
      JS.template ["Added "; JS.show quantity; " units to "; productName;
                   ". Stock increased from "; JS.show previousStock; " to ";
                   JS.show newStock; "."]
    else if String.eqb operation "subtract" then
      JS.template ["Removed "; JS.show quantity; " units from "; productName;
                   ". Stock decreased from "; JS.show previousStock; " to ";
                   JS.show newStock; "."]
    else if String.eqb operation "set" then
      JS.template ["Set stock level for "; productName; " to ";
                   JS.show newStock; " units. Previous stock was ";
                   JS.show previousStock; "."]
    else EmptyString in
  if newStock =? 0 then
    JS.template [message; " "; JS.warning; " Product is now out of stock."]
  else if newStock <=? 10 then
    JS.template [message; " "; JS.warning; " Product stock is now low."]
  else message.

(** [updateInventory.execute]; a thrown error leaves the store as it was. *)
Definition updateInventory (productIdentifier identifierType operation : string)
                           (quantity : Z) (reason : option string) (now : Z)
                           (st : Store.t)
  : failure + inventoryResult * Store.t :=
  match lookup st productIdentifier identifierType with
  | None => inl (NotFound identifierType productIdentifier)
  | Some product =>
      let previousStock := Product.stock product in
      let '(success, st') :=
        Store.updateStock (Product.id product)
                          (StockOperation.mk operation quantity reason) now st in
      if negb success then inl (UpdateFailed (Product.name product))
      else
        let newStock :=
          match Store.getProduct st' (Product.id product) with
          | Some updatedProduct => Product.stock updatedProduct
          | None => 0
          end in
        inr (mkInventoryResult success (Product.id product)
               (Product.name product) previousStock newStock operation
               quantity reason
               (inventoryMessage operation (Product.name product) quantity
                                 previousStock newStock),
             st')
  end.

(** *** The [getLowStockAlerts] tool *)

Inductive alertLevel := low_stock | out_of_stock.

Record stockAlert := mkStockAlert
  { a_id : string;
    a_name : string;
    currentStock : Z;
    a_category : string;
    a_sku : option string;
    a_price : Qc;
    level : alertLevel }.

Record alertSummary := mkAlertSummary
  { totalLowStock : nat;
    totalOutOfStock : nat;
    criticalItems : nat;
    totalValue : Qc }.

Definition alert (l : alertLevel) (product : Product.t) : stockAlert :=
  mkStockAlert (Product.id product) (Product.name product)
               (Product.stock product) (Product.category product)
               (Product.sku product) (Product.price product) l.

Definition getLowStockAlerts (threshold : Z) (includeOutOfStock : bool)
                             (st : Store.t) : list stockAlert * alertSummary :=
  let lowStockProducts := Store.getLowStockProducts threshold st in
  let outOfStockProducts :=
    if includeOutOfStock then Store.getOutOfStockProducts st else [] in
  let allProducts :=
    List.map (alert low_stock) lowStockProducts
    ++ (if includeOutOfStock
        then List.map (alert out_of_stock) outOfStockProducts else []) in
  (allProducts,
   mkAlertSummary
     (List.length lowStockProducts)
     (List.length outOfStockProducts)
     (List.length (filter (fun p => currentStock p <=? 3) allProducts))
     (fold_left (fun sum product =>
                   (sum + a_price product
                          * Q2Qc (inject_Z (currentStock product)))%Qc)
                allProducts 0%Qc)).

(** *** The [toggleVisibility] tool of [toggle-visibility.ts] *)

Record visibilityResult := mkVisibilityResult
  { v_success : bool;
    v_message : string;
    v_product : option (string * string * bool) }.

Definition toggleVisibility (id : string) (visible : option bool) (now : Z)
                            (st : Store.t) : visibilityResult * Store.t :=
  match Store.getProduct st id with
  | None =>
      (mkVisibilityResult false
         (JS.template ["Product with ID "; id; " not found"]) None, st)
  | Some currentProduct =>
      let newVisibility :=
        match visible with
        | Some v => v
        | None => negb (Product.isVisible currentProduct)
        end in
      let '(success, st') :=
        Store.updateProduct id
          (ProductUpdates.mk None None None None None None None
             (Some newVisibility) None None None None None (Some now))
          now st in
      match success with
      | Some _ =>
          match Store.getProduct st' id with
          | Some updatedProduct =>
              (mkVisibilityResult true
                 (JS.template ["Product "; JS.quote; Product.name updatedProduct;
                               JS.quote; " is now ";
                               if newVisibility then "shown" else "hidden";
                               " in the store"])
                 (Some (Product.id updatedProduct, Product.name updatedProduct,
                        Product.isVisible updatedProduct)), st')
          | None =>
              (* [updatedProduct!.id] throws, the [catch] reports it *)
              (mkVisibilityResult false
                 "Error toggling visibility: Cannot read properties of undefined (reading 'id')"
                 None, st')
          end
      | None =>
          (mkVisibilityResult false
             (JS.template ["Failed to update visibility for product with ID "; id])
             None, st')
      end
  end.

(** *** The [getProductsByCollection] tool *)

Record collectionPage := mkCollectionPage
  { page : list Product.t;
    total : nat;
    p_collection : string;
    p_limit : Z;
    p_offset : Z;
    hasNext : bool }.

Definition in_collection (collection : string) (product : Product.t) : bool :=
  match JS.truthy_value (Product.collection product) with
  | Some c => String.eqb (JS.toLowerCase c) (JS.toLowerCase collection)
  | None => false
  end.

Definition getProductsByCollectionTool (collection : string) (limit offset : Z)
                                       (st : Store.t) : collectionPage :=
  let allProducts := Store.getAllProducts st None in
  let filteredProducts := filter (in_collection collection) allProducts in
  let paginatedProducts := JS.slice offset (offset + limit) filteredProducts in
  mkCollectionPage paginatedProducts (List.length filteredProducts) collection
                   limit offset
                   (offset + limit <? Z.of_nat (List.length filteredProducts)).

End Tools.

(** ** Sequences of repository operations *)

Inductive Op :=
| OpAddProduct (productData : Product.t) (now : Z) (rnd : string)
| OpUpdateProduct (id : string) (updates : ProductUpdates.t) (now : Z)
| OpDeleteProduct (id : string)
| OpUpdateStock (productId : string) (stockOperation : StockOperation.t) (now : Z)
| OpAddSale (saleData : Sale.t) (now : Z) (rnd : string)
| OpImportData (data : list Product.t * list Sale.t)
| OpReset (samples : list Product.t) (loaded : Z).

Definition apply (op : Op) (st : Store.t) : Store.t :=
  match op with
  | OpAddProduct d now rnd => snd (Store.addProduct d now rnd st)
  | OpUpdateProduct id u now => snd (Store.updateProduct id u now st)
  | OpDeleteProduct id => snd (Store.deleteProduct id st)
  | OpUpdateStock id sop now => snd (Store.updateStock id sop now st)
  | OpAddSale d now rnd => snd (Store.addSale d now rnd st)
  | OpImportData data => Store.importData data st
  | OpReset samples loaded => Store.reset samples loaded st
  end.

(** The states after each operation of a sequence. *)
Fixpoint trace (ops : list Op) (st : Store.t) : list Store.t :=
  match ops with
  | [] => []
  | op :: ops' => apply op st :: trace ops' (apply op st)
  end.

(** The states a store object can be in: created by the constructor, then
    changed by its methods. *)
Inductive reachable : Store.t -> Prop :=
| reach_create samples loaded : reachable (Store.create samples loaded)
| reach_apply op st : reachable st -> reachable (apply op st).

(** Every stock level in the store is non-negative. *)
Definition stock_ok (st : Store.t) : Prop :=
  Forall (fun kp => 0 <= Product.stock (snd kp)) (Store.products st).

(** What the tool layer's input schemas let through to the repository: a
    non-negative initial stock, a non-negative quantity to add.  [reset]
    reloads the shared sample product objects as they are now, which
    [updateStock] may have changed in place while they sat in a store's map:
    it is guarded by their current stock being non-negative. *)
Definition guarded (op : Op) : Prop :=
  match op with
  | OpAddProduct d _ _ => 0 <= Product.stock d
  | OpUpdateProduct _ u _ =>
      match ProductUpdates.stock u with Some n => 0 <= n | None => True end
  | OpUpdateStock _ sop _ =>
      StockOperation.operation sop = "add" -> 0 <= StockOperation.quantity sop
  | OpImportData data => Forall (fun p => 0 <= Product.stock p) (fst data)
  | OpReset samples _ => Forall (fun p => 0 <= Product.stock p) samples
  | OpDeleteProduct _ | OpAddSale _ _ _ => True
  end.

(** Every map entry is keyed by its product's id, and keys are distinct. *)
Definition keyed (m : list (string * Product.t)) : Prop :=
  NoDup (JS.map_keys m) /\ Forall (fun kp => fst kp = Product.id (snd kp)) m.

(** ** Small stores used as concrete inputs *)

Module Examples.

Definition item (id name category : string) (sku : option string) (stock : Z)
  : Product.t :=
  Product.mk id name "An item" (Sample.money 1000) category None None stock
             true [] sku None None None 0 0.

Definition order (productId : string) (quantity : Z) (totalAmount : Qc)
                 (timestamp : Z) : Sale.t :=
  Sale.mk EmptyString productId "An item" quantity (Sample.money 1000) totalAmount
          "customer@example.com" None None delivered "credit_card" timestamp.

Definition holding (ps : list Product.t) (ss : list Sale.t) : Store.t :=
  Store.importData (ps, ss) Store.empty.

Definition widget (stock : Z) : Product.t :=
  item "w-1" "Widget" "Tools" (Some "W-001") stock.





(** A case folding that, besides the ASCII letters, folds the capital E with
    acute accent (bytes 195, 137) to the small one (bytes 195, 169). *)
Fixpoint fold_acute (lead : bool) (s : string) : string :=
  match s with
  | EmptyString => EmptyString
  | String c s' =>
      let n := nat_of_ascii c in
      if (lead && Nat.eqb n 137)%bool
      then String (ascii_of_nat 169) (fold_acute false s')
      else String (JS.lower_ascii c) (fold_acute (Nat.eqb n 195) s')
  end.

(** "CAFE" and "cafe" with the last letter accented. *)
Definition cafe_upper : string :=
  String.append "CAF" (string_of_list_ascii (List.map ascii_of_nat [195; 137]%nat)).

Definition cafe_lower : string :=
  String.append "caf" (string_of_list_ascii (List.map ascii_of_nat [195; 169]%nat)).

End Examples.

(** ** The specification's vocabulary *)

Module Spec.

(** [name] contains [fragment] case-insensitively: the folded fragment
    occurs in the folded name, [lower] being the case folding. *)
Definition contains_ci (lower : string -> string) (name fragment : string)
  : Prop :=
  exists before after : string,
    lower name = String.append before (String.append (lower fragment) after).

(** [r] keeps, in order, exactly the entries of [l] that satisfy [P]. *)
Inductive selects {A : Type} (P : A -> Prop) : list A -> list A -> Prop :=
| selects_nil : selects P [] []
| selects_keep x l r : P x -> selects P l r -> selects P (x :: l) (x :: r)
| selects_skip x l r : ~ P x -> selects P l r -> selects P (x :: l) r.


(** A sale is orphaned when its product id resolves to no current product. *)
Definition orphaned (st : Store.t) (sale : Sale.t) : bool :=
  match Store.getProduct st (Sale.productId sale) with
  | Some _ => false
  | None => true
  end.

Definition resolved (st : Store.t) (sale : Sale.t) : bool :=
  negb (orphaned st sale).

(** Summed [totalAmount] of the sales of product [id]. *)
Definition product_revenue (id : string) (l : list Sale.t) : Qc :=
  Store.revenue (filter (fun sale => String.eqb (Sale.productId sale) id) l).

(** Revenue recorded for product [id] in a per-product grouping. *)
Definition sales_of (id : string) (m : list (string * (string * Qc))) : Qc :=
  match JS.map_get id m with Some (_, r) => r | None => 0%Qc end.




(** The category of every stored product is listed, and so is its collection
    when it has one; neither list has duplicates. *)
Definition tracked (st : Store.t) : Prop :=
  NoDup (Store.categories st) /\
  NoDup (Store.collections st) /\
  Forall (fun kp =>
            In (Product.category (snd kp)) (Store.categories st) /\
            match JS.truthy_value (Product.collection (snd kp)) with
            | Some c => In c (Store.collections st)
            | None => True
            end)
         (Store.products st).

(** [p] passes every filter that [f] requests, [lower] being the case
    folding; an empty string requests nothing. *)
Definition satisfies (lower : string -> string) (f : ProductFilters.t)
                     (p : Product.t) : Prop :=
  match JS.truthy_value (ProductFilters.category f) with
  | Some c => contains_ci lower (Product.category p) c
  | None => True
  end /\
  match JS.truthy_value (ProductFilters.collection f) with
  | Some c => exists pc, Product.collection p = Some pc /\ contains_ci lower pc c
  | None => True
  end /\
  match JS.truthy_value (ProductFilters.tag f) with
  | Some g => exists tag, In tag (Product.tags p) /\ contains_ci lower tag g
  | None => True
  end /\
  match ProductFilters.priceMin f with
  | Some lo => (lo <= Product.price p)%Qc
  | None => True
  end /\
  match ProductFilters.priceMax f with
  | Some hi => (Product.price p <= hi)%Qc
  | None => True
  end /\
  match ProductFilters.inStock f with
  | Some true => 0 < Product.stock p
  | Some false => Product.stock p = 0
  | None => True
  end /\
  match ProductFilters.visible f with
  | Some v => Product.isVisible p = v
  | None => True
  end.

(** Sum of [orders] over the entries of [categoryPerformance]. *)
Definition category_orders (cats : list StoreMetrics.cat) : Z :=
  fold_right (fun c acc => StoreMetrics.orders c + acc) 0 cats.

(** The product name recorded by the earliest sale of product [id]. *)
Definition first_name (id : string) (l : list Sale.t) : option string :=
  option_map Sale.productName
             (find (fun sale => String.eqb (Sale.productId sale) id) l).

(** The operations that replace the whole store. *)
Definition replaces (op : Op) : bool :=
  match op with
  | OpImportData _ | OpReset _ _ => true
  | _ => false
  end.

End Spec.

(** * Properties *)

(** ** Insertion-ordered maps *)

Section MapFacts.
Context {V : Type}.
Implicit Types (m : list (string * V)) (k : string) (v : V).

Lemma map_get_set_same k v m : JS.map_get k (JS.map_set k v m) = Some v.
Proof.
  induction m as [|[k' v'] m IH]; simpl.
  - now rewrite String.eqb_refl.
  - destruct (String.eqb k k') eqn:E; simpl; now rewrite E.
Qed.

Lemma map_get_set_other k k' v m :
  k' <> k -> JS.map_get k' (JS.map_set k v m) = JS.map_get k' m.
Proof.
  intros Hne. induction m as [|[k0 v0] m IH]; simpl.
  - destruct (String.eqb_spec k' k); [contradiction | reflexivity].
  - destruct (String.eqb_spec k k0) as [->|]; simpl.
    + destruct (String.eqb_spec k' k0); [contradiction | reflexivity].
    + now rewrite IH.
Qed.

Lemma map_get_in k v m : JS.map_get k m = Some v -> In (k, v) m.
Proof.
  induction m as [|[k' v'] m IH]; simpl; [discriminate|].
  destruct (String.eqb_spec k k') as [->|]; intros H.
  - injection H as ->. now left.
  - right. auto.
Qed.

Lemma map_get_none k m : JS.map_get k m = None <-> ~ In k (JS.map_keys m).
Proof.
  induction m as [|[k' v'] m IH]; simpl; [tauto|].
  destruct (String.eqb_spec k k') as [->|]; split; intros H.
  - discriminate.
  - exfalso. apply H. now left.
  - intros [E|Hin]; [congruence | now apply IH in Hin].
  - apply IH. tauto.
Qed.

Lemma map_set_absent k v m :
  JS.map_get k m = None -> JS.map_set k v m = m ++ [(k, v)].
Proof.
  induction m as [|[k' v'] m IH]; simpl; [reflexivity|].
  destruct (String.eqb k k'); [discriminate|].
  intros H. now rewrite IH.
Qed.

Lemma map_set_keys_present k v m :
  JS.map_get k m <> None -> JS.map_keys (JS.map_set k v m) = JS.map_keys m.
Proof.
  induction m as [|[k' v'] m IH]; simpl; [congruence|].
  destruct (String.eqb k k'); simpl; intros H; [reflexivity|].
  now rewrite IH.
Qed.

Lemma map_set_in k v m kv :
  In kv (JS.map_set k v m) -> kv = (k, v) \/ In kv m.
Proof.
  induction m as [|[k' v'] m IH]; simpl.
  - intros [<-|[]]. now left.
  - destruct (String.eqb_spec k k') as [->|]; simpl; intuition.
Qed.

Lemma map_set_Forall (P : string * V -> Prop) k v m :
  P (k, v) -> Forall P m -> Forall P (JS.map_set k v m).
Proof.
  intros Hkv Hm. apply Forall_forall. intros kv Hin.
  apply map_set_in in Hin as [->|Hin]; [assumption|].
  now apply (proj1 (Forall_forall _ _) Hm).
Qed.

Lemma map_set_NoDup k v m :
  NoDup (JS.map_keys m) -> NoDup (JS.map_keys (JS.map_set k v m)).
Proof.
  intros Hnd. destruct (JS.map_get k m) eqn:E.
  - rewrite map_set_keys_present; [assumption | congruence].
  - rewrite (map_set_absent _ _ _ E). unfold JS.map_keys.
    rewrite map_app. simpl.
    apply NoDup_app; [assumption | repeat constructor; intros [] |].
    intros x Hx [<-|[]]. now apply map_get_none in E.
Qed.

Lemma map_delete_incl k m kv : In kv (JS.map_delete k m) -> In kv m.
Proof.
  induction m as [|[k' v'] m IH]; simpl; [tauto|].
  destruct (String.eqb k k'); simpl; intuition.
Qed.

Lemma map_delete_NoDup k m :
  NoDup (JS.map_keys m) -> NoDup (JS.map_keys (JS.map_delete k m)).
Proof.
  induction m as [|[k' v'] m IH]; simpl; [trivial|].
  intros Hnd. inversion Hnd as [|? ? Hnotin Hnd']; subst.
  destruct (String.eqb k k'); simpl; [assumption|].
  constructor; [|auto].
  intros Hin. apply Hnotin. apply in_map_iff in Hin as [kv [E Hin]].
  apply in_map_iff. exists kv. split; [assumption|].
  eapply map_delete_incl; eassumption.
Qed.

End MapFacts.

(** ** Stock mutation *)

Lemma updateStock_known st id p sop now :
  Store.getProduct st id = Some p ->
  Store.updateStock id sop now st =
    let q := StockOperation.quantity sop in
    let op := StockOperation.operation sop in
    let commit n :=
      (true, Store.with_products
               (JS.map_set id (Product.with_stock n now p) (Store.products st)) st) in
    if String.eqb op "add" then commit (Product.stock p + q)
    else if String.eqb op "subtract" then commit (Z.max 0 (Product.stock p - q))
    else if String.eqb op "set" then commit (Z.max 0 q)
    else (false, st).
Proof.
  unfold Store.getProduct, Store.updateStock. now intros ->.
Qed.

Lemma updateStock_unknown st id sop now :
  Store.getProduct st id = None -> Store.updateStock id sop now st = (false, st).
Proof.
  unfold Store.getProduct, Store.updateStock. now intros ->.
Qed.

Lemma updateStock_sales st id sop now :
  Store.sales (snd (Store.updateStock id sop now st)) = Store.sales st.
Proof.
  unfold Store.updateStock. destruct (JS.map_get id (Store.products st)); [|reflexivity].
  cbv zeta.
  repeat match goal with |- context [if ?b then _ else _] => destruct b end;
    reflexivity.
Qed.

Lemma updateStock_other st id sop now k :
  k <> id ->
  Store.getProduct (snd (Store.updateStock id sop now st)) k = Store.getProduct st k.
Proof.
  intros Hne. unfold Store.updateStock, Store.getProduct.
  destruct (JS.map_get id (Store.products st)); [|reflexivity].
  cbv zeta.
  repeat match goal with |- context [if ?b then _ else _] => destruct b end;
    simpl; try reflexivity; now apply map_get_set_other.
Qed.

(** C3. For an existing product with stock [s] and any quantity [q],
    [updateStock] with [subtract] returns true and leaves stock
    [max(0, s - q)], and with [set] returns true and leaves stock
    [max(0, q)]; neither result is negative. *)
Theorem C3_updateStock_subtract_set
        (st : Store.t) (id : string) (p : Product.t) (q now : Z)
        (reason : option string) :
  Store.getProduct st id = Some p ->
  let sub := Store.updateStock id (StockOperation.mk "subtract" q reason) now st in
  let set := Store.updateStock id (StockOperation.mk "set" q reason) now st in
  (fst sub = true /\
   option_map Product.stock (Store.getProduct (snd sub) id)
     = Some (Z.max 0 (Product.stock p - q)) /\
   0 <= Store.getStockLevel (snd sub) id) /\
  (fst set = true /\
   option_map Product.stock (Store.getProduct (snd set) id) = Some (Z.max 0 q) /\
   0 <= Store.getStockLevel (snd set) id).
Proof.
  intros Hp sub set. subst sub set.
  rewrite !(updateStock_known _ _ _ _ _ Hp). simpl.
  unfold Store.getProduct, Store.getStockLevel. simpl.
  rewrite !map_get_set_same. simpl.
  repeat split; lia.
Qed.

Lemma C3_witness :
  Store.getProduct (Examples.holding [Examples.widget 5] []) "w-1"
    = Some (Examples.widget 5) /\
  option_map Product.stock
    (Store.getProduct
       (snd (Store.updateStock "w-1" (StockOperation.mk "subtract" 9 None) 7
               (Examples.holding [Examples.widget 5] []))) "w-1") = Some 0.
Proof.
  split; [reflexivity|].
  exact (proj1 (proj2 (proj1
    (C3_updateStock_subtract_set (Examples.holding [Examples.widget 5] [])
       "w-1" (Examples.widget 5) 9 7 None eq_refl)))).
Defined.

(** C2, as amended.  [addSale] appends exactly one sale to the sale log: the
    input, field by field, except that its id is the generated string
    [sale-<Date.now()>-<random suffix>].  The code does not compare that
    string with the ids already in the log: the ids of the log stay pairwise
    distinct when the generated string is not among them.  The referenced
    product's stock becomes [max(0, stock - quantity)] when the product
    exists, and the product map is left as it was when it does not; no other
    product is touched.  With stock 3 and quantity 5 the stock ends at 0. *)
Theorem C2_addSale_appends_and_decrements
        (st : Store.t) (saleData : Sale.t) (now : Z) (rnd : string) :
  let newSale := fst (Store.addSale saleData now rnd st) in
  let st' := snd (Store.addSale saleData now rnd st) in
  Sale.id newSale
  = String.append "sale-"
      (String.append (JS.show now) (String.append "-" rnd)) /\
  (Sale.productId newSale = Sale.productId saleData /\
   Sale.productName newSale = Sale.productName saleData /\
   Sale.quantity newSale = Sale.quantity saleData /\
   Sale.unitPrice newSale = Sale.unitPrice saleData /\
   Sale.totalAmount newSale = Sale.totalAmount saleData /\
   Sale.customerEmail newSale = Sale.customerEmail saleData /\
   Sale.customerName newSale = Sale.customerName saleData /\
   Sale.shippingAddress newSale = Sale.shippingAddress saleData /\
   Sale.status newSale = Sale.status saleData /\
   Sale.paymentMethod newSale = Sale.paymentMethod saleData /\
   Sale.timestamp newSale = Sale.timestamp saleData) /\
  Store.sales st' = Store.sales st ++ [newSale] /\
  (~ In (Sale.id newSale) (List.map Sale.id (Store.sales st)) ->
   NoDup (List.map Sale.id (Store.sales st)) ->
   NoDup (List.map Sale.id (Store.sales st'))) /\
  match Store.getProduct st (Sale.productId saleData) with
  | Some p =>
      option_map Product.stock (Store.getProduct st' (Sale.productId saleData))
        = Some (Z.max 0 (Product.stock p - Sale.quantity saleData))
  | None => Store.products st' = Store.products st
  end /\
  (forall k, k <> Sale.productId saleData ->
             Store.getProduct st' k = Store.getProduct st k) /\
  Store.getStockLevel
    (snd (Store.addSale (Examples.order "w-1" 5 (Sample.money 5000) 0) now rnd
            (Examples.holding [Examples.widget 3] []))) "w-1" = 0.
Proof.
  cbv zeta. unfold Store.addSale.
  set (newSale := Sale.with_id (Store.genId "sale" now rnd) saleData).
  set (st1 := Store.with_sales (Store.sales st ++ [newSale]) st).
  set (sop := StockOperation.mk "subtract" (Sale.quantity saleData) _).
  assert (Hsplit : forall (r : bool * Store.t),
             (let '(_, st2) := r in (newSale, st2)) = (newSale, snd r))
    by (now intros []).
  rewrite Hsplit. simpl fst. simpl snd.
  assert (Hsales : Store.sales (snd (Store.updateStock (Sale.productId saleData)
                                       sop now st1))
                   = Store.sales st ++ [newSale])
    by now rewrite updateStock_sales.
  split; [reflexivity|]. split; [repeat split|]. split; [exact Hsales|].
  split; [|split; [|split]].
  - intros Hnew Hnd. rewrite Hsales, map_app. simpl.
    apply NoDup_app; [assumption | repeat constructor; intros [] |].
    intros x Hx [<-|[]]. contradiction.
  - change (Store.getProduct st (Sale.productId saleData))
      with (Store.getProduct st1 (Sale.productId saleData)).
    destruct (Store.getProduct st1 (Sale.productId saleData)) as [p|] eqn:Hp.
    + rewrite (updateStock_known _ _ _ _ _ Hp). simpl.
      unfold Store.getProduct. simpl. now rewrite map_get_set_same.
    + now rewrite (updateStock_unknown _ _ _ _ Hp).
  - intros k Hk. now rewrite updateStock_other.
  - reflexivity.
Qed.

Lemma C2_witness :
  let st := Examples.holding [Examples.widget 3] [] in
  let sold := Store.addSale (Examples.order "gone" 5 (Sample.money 5000) 0)
                            1 "abc" st in
  Sale.id (fst sold) = "sale-1-abc" /\
  NoDup (List.map Sale.id (Store.sales (snd sold))) /\
  Store.products (snd sold) = [("w-1", Examples.widget 3)].
Proof.
  pose proof (C2_addSale_appends_and_decrements
                (Examples.holding [Examples.widget 3] [])
                (Examples.order "gone" 5 (Sample.money 5000) 0) 1 "abc") as H.
  cbv zeta in H. destruct H as (Hid & _ & _ & Hfresh & Hstock & _).
  cbv zeta. split; [exact Hid|]. split; [|exact Hstock].
  apply Hfresh; [intros [] | constructor].
Defined.

(** C2 as stated fails: the id that [addSale] draws need not be fresh.  In a
    log that already holds a sale with id [sale-1-abc], a sale added when the
    clock reads 1 and the random suffix is [abc] gets that same id. *)
Lemma C2_counterexample :
  let st := Examples.holding
              [Examples.widget 3]
              [Sale.with_id "sale-1-abc"
                            (Examples.order "w-1" 1 (Sample.money 1000) 0)] in
  let sold := Store.addSale (Examples.order "w-1" 1 (Sample.money 1000) 5)
                            1 "abc" st in
  NoDup (List.map Sale.id (Store.sales st)) /\
  In (Sale.id (fst sold)) (List.map Sale.id (Store.sales st)) /\
  List.map Sale.id (Store.sales (snd sold)) = ["sale-1-abc"; "sale-1-abc"] /\
  ~ NoDup (List.map Sale.id (Store.sales (snd sold))).
Proof.
  cbv zeta. split; [repeat constructor; intros []|].
  split; [now left|]. split; [reflexivity|].
  intros H. inversion H as [|? ? Hnotin _]; subst. apply Hnotin. now left.
Qed.

(** ** The stock invariant *)

Lemma stock_ok_load st p :
  0 <= Product.stock p -> stock_ok st -> stock_ok (Store.load st p).
Proof.
  intros Hp Hst. unfold stock_ok, Store.load. simpl.
  now apply map_set_Forall.
Qed.

Lemma stock_ok_fold_load ps st :
  Forall (fun p => 0 <= Product.stock p) ps ->
  stock_ok st -> stock_ok (fold_left Store.load ps st).
Proof.
  intros Hps. revert st.
  induction Hps as [|p ps Hp _ IH]; intros st Hst; simpl; [assumption|].
  apply IH. now apply stock_ok_load.
Qed.

Lemma stock_ok_lookup st id p :
  stock_ok st -> Store.getProduct st id = Some p -> 0 <= Product.stock p.
Proof.
  intros Hst Hp. apply map_get_in in Hp.
  exact (proj1 (Forall_forall _ _) Hst _ Hp).
Qed.

Lemma stock_ok_updateStock st id sop now :
  (StockOperation.operation sop = "add" -> 0 <= StockOperation.quantity sop) ->
  stock_ok st -> stock_ok (snd (Store.updateStock id sop now st)).
Proof.
  intros Hg Hst.
  destruct (Store.getProduct st id) as [p|] eqn:Hp.
  - pose proof (stock_ok_lookup _ _ _ Hst Hp) as Hpos.
    rewrite (updateStock_known _ _ _ _ _ Hp). cbv zeta.
    destruct (String.eqb_spec (StockOperation.operation sop) "add") as [Ha|_].
    + specialize (Hg Ha). apply map_set_Forall; [simpl; lia | assumption].
    + destruct (String.eqb (StockOperation.operation sop) "subtract").
      * apply map_set_Forall; [simpl; lia | assumption].
      * destruct (String.eqb (StockOperation.operation sop) "set");
          [apply map_set_Forall; [simpl; lia | assumption] | assumption].
  - now rewrite (updateStock_unknown _ _ _ _ Hp).
Qed.

Lemma stock_ok_apply op st :
  guarded op -> stock_ok st -> stock_ok (apply op st).
Proof.
  destruct op as [d now rnd|id u now|id|id sop now|d now rnd|data|samples loaded];
    simpl; intros Hg Hst.
  - apply stock_ok_load; assumption.
  - unfold Store.updateProduct.
    destruct (JS.map_get id (Store.products st)) as [p|] eqn:Hp; [|assumption].
    apply map_set_Forall; [|assumption]. simpl.
    pose proof (stock_ok_lookup st id p Hst Hp).
    destruct (ProductUpdates.stock u); simpl; assumption.
  - apply Forall_forall. intros kv Hin. apply map_delete_incl in Hin.
    exact (proj1 (Forall_forall _ _) Hst _ Hin).
  - now apply stock_ok_updateStock.
  - unfold Store.addSale.
    match goal with
    | |- context [Store.updateStock ?i ?o ?n ?s] =>
        pose proof (stock_ok_updateStock s i o n) as H;
        destruct (Store.updateStock i o n s) as [r st2]
    end.
    apply H; [discriminate | assumption].
  - unfold Store.importData. apply stock_ok_fold_load; [assumption | constructor].
  - unfold Store.reset, Store.initializeWithSampleData.
    apply stock_ok_fold_load; [assumption | constructor].
Qed.

(** C1, as amended.  Starting from a store whose stock levels are all
    non-negative, after each operation of a sequence of addProduct,
    updateProduct, updateStock, addSale and importData (and deleteProduct)
    every stock level is still non-negative, provided that addProduct,
    updateProduct and importData are given non-negative stock levels and
    that updateStock with [add] is given a non-negative quantity;
    [subtract] and [set] (and addSale) may be given any quantity.  The same
    holds of reset provided that the shared sample product objects it
    reloads have non-negative stock at that moment. *)
Theorem C1_stock_nonnegative_guarded (ops : list Op) (st : Store.t) :
  stock_ok st -> Forall guarded ops -> Forall stock_ok (trace ops st).
Proof.
  intros Hst Hops. revert st Hst.
  induction Hops as [|op ops Hop _ IH]; intros st Hst; simpl; constructor.
  - now apply stock_ok_apply.
  - apply IH. now apply stock_ok_apply.
Qed.

Lemma C1_witness :
  Forall stock_ok
    (trace [OpUpdateStock "w-1" (StockOperation.mk "subtract" 9 None) 1;
            OpUpdateStock "w-1" (StockOperation.mk "add" 4 None) 2;
            OpAddSale (Examples.order "w-1" 7 (Sample.money 7000) 3) 3 "abc"]
           (Examples.holding [Examples.widget 5] [])).
Proof.
  apply C1_stock_nonnegative_guarded.
  - repeat constructor. simpl. lia.
  - repeat constructor; simpl; intros; lia.
Defined.

(** C1 as stated fails: [add] with a negative quantity, and a negative stock
    handed to addProduct, updateProduct or importData, each leave a negative
    stock in a store whose stock levels were all non-negative. *)
Lemma C1_counterexample :
  let st := Examples.holding [Examples.widget 5] [] in
  stock_ok st /\
  Store.getStockLevel
    (apply (OpUpdateStock "w-1" (StockOperation.mk "add" (-9) None) 1) st) "w-1"
    = -4 /\
  ~ stock_ok (apply (OpUpdateStock "w-1" (StockOperation.mk "add" (-9) None) 1) st) /\
  ~ stock_ok (apply (OpAddProduct (Examples.widget (-1)) 1 "abc") st) /\
  ~ stock_ok (apply (OpUpdateProduct "w-1"
                       (ProductUpdates.mk None None None None None None (Some (-1))
                          None None None None None None None) 1) st) /\
  ~ stock_ok (apply (OpImportData ([Examples.widget (-1)], [])) st).
Proof.
  cbv zeta. split; [repeat constructor; simpl; lia|].
  split; [reflexivity|].
  repeat split; intros H.
  - inversion H as [|? ? Hneg _]; subst. simpl in Hneg. lia.
  - inversion H as [|? ? _ H']; subst.
    inversion H' as [|? ? Hneg _]; subst. simpl in Hneg. lia.
  - inversion H as [|? ? Hneg _]; subst. simpl in Hneg. lia.
  - inversion H as [|? ? Hneg _]; subst. simpl in Hneg. lia.
Qed.

(** ** Lookup by name *)

Lemma prefix_spec (t s : string) :
  String.prefix t s = true <-> exists after, s = String.append t after.
Proof.
  revert s. induction t as [|c t IH]; intros s; simpl.
  - split; [intros _; now exists s | now destruct s].
  - destruct s as [|d s]; simpl.
    + split; [discriminate | intros [a Ha]; discriminate].
    + destruct (Ascii.ascii_dec c d) as [->|Hne].
      * rewrite IH. split; intros [a Ha]; exists a; congruence.
      * split; [discriminate | intros [a Ha]; congruence].
Qed.

Lemma includes_unfold (s t : string) :
  JS.includes s t =
  if String.prefix t s then true
  else match s with
       | EmptyString => false
       | String _ s' => JS.includes s' t
       end.
Proof. destruct s; reflexivity. Qed.

Lemma includes_spec (s t : string) :
  JS.includes s t = true
  <-> exists before after, s = String.append before (String.append t after).
Proof.
  induction s as [|c s IH]; rewrite includes_unfold.
  - destruct (String.prefix t EmptyString) eqn:E.
    + split; [intros _|reflexivity].
      apply prefix_spec in E as [a Ha]. now exists EmptyString, a.
    + split; [discriminate|]. intros [b [a H]].
      destruct b; simpl in H; [|discriminate].
      assert (String.prefix t EmptyString = true) by (apply prefix_spec; now exists a).
      congruence.
  - destruct (String.prefix t (String c s)) eqn:E.
    + split; [intros _|reflexivity].
      apply prefix_spec in E as [a Ha]. now exists EmptyString, a.
    + rewrite IH. split; intros [b [a H]].
      * exists (String c b), a. simpl. now rewrite H.
      * destruct b as [|c' b]; simpl in H.
        -- assert (String.prefix t (String c s) = true)
             by (apply prefix_spec; now exists a).
           congruence.
        -- exists b, a. congruence.
Qed.

Lemma find_first {A : Type} (f : A -> bool) (l : list A) :
  match find f l with
  | Some x => exists l1 l2, l = l1 ++ x :: l2 /\ f x = true
                            /\ Forall (fun y => f y = false) l1
  | None => Forall (fun y => f y = false) l
  end.
Proof.
  induction l as [|a l IH]; simpl; [constructor|].
  destruct (f a) eqn:Ea.
  - exists [], l. repeat split; [assumption | constructor].
  - destruct (find f l) as [x|].
    + destruct IH as (l1 & l2 & -> & Hx & Hl1).
      exists (a :: l1), l2. repeat split; [assumption | now constructor].
    + now constructor.
Qed.





(** ** Product creation *)


(** C4, evaluated.  In the store of sample products no product is named
    "Shirt" and the input carries no SKU, yet [createProduct] rejects a
    product named "Shirt" with [DuplicateName], because "Blue T-Shirt"
    contains it. *)
Theorem C4_createProduct_rejects_name_fragment (loaded now : Z) (rnd : string) :
  let st := Store.create Sample.sampleProducts loaded in
  let shirt := Examples.item EmptyString "Shirt" "Clothing" None 0 in
  Forall (fun p => Product.name p <> Product.name shirt)
         (JS.map_values (Store.products st)) /\
  Product.sku shirt = None /\
  Tools.createProduct shirt now rnd st = inl (Tools.DuplicateName "Shirt").
Proof.
  cbv zeta. split; [|split; reflexivity].
  repeat constructor; discriminate.
Qed.

(** ** Sales by date range *)

Lemma filter_selects {A : Type} (f : A -> bool) (P : A -> Prop) (l : list A) :
  (forall x, f x = true <-> P x) -> Spec.selects P l (filter f l).
Proof.
  intros Hf. induction l as [|x l IH]; simpl; [constructor|].
  destruct (f x) eqn:E.
  - apply Spec.selects_keep; [now apply Hf | assumption].
  - apply Spec.selects_skip; [|assumption].
    intros HP. apply Hf in HP. congruence.
Qed.

Lemma in_range_spec (start end_ : Z) (sale : Sale.t) :
  Store.in_range start end_ sale = true
  <-> start <= Sale.timestamp sale <= end_.
Proof. unfold Store.in_range. lia. Qed.

(** C6. [getSalesByDateRange] keeps, in the order of the sale log, exactly
    the sales whose timestamp [t] satisfies [start <= t <= end]; a sale at
    [start] and a sale at [end] are both kept. *)
Theorem C6_getSalesByDateRange_inclusive (st : Store.t) (start end_ : Z) :
  Spec.selects (fun sale => start <= Sale.timestamp sale <= end_)
               (Store.sales st) (Store.getSalesByDateRange st start end_) /\
  (forall sale,
      In sale (Store.getSalesByDateRange st start end_)
      <-> In sale (Store.sales st) /\ start <= Sale.timestamp sale <= end_) /\
  let log := [Examples.order "a" 1 (Sample.money 100) 99;
              Examples.order "b" 1 (Sample.money 100) 200;
              Examples.order "c" 1 (Sample.money 100) 150;
              Examples.order "d" 1 (Sample.money 100) 201;
              Examples.order "e" 1 (Sample.money 100) 100] in
  List.map Sale.productId
           (Store.getSalesByDateRange (Examples.holding [] log) 100 200)
  = ["b"; "c"; "e"].
Proof.
  split; [|split; [|reflexivity]].
  - apply filter_selects. intros sale. apply in_range_spec.
  - intros sale. unfold Store.getSalesByDateRange.
    rewrite filter_In, in_range_spec. reflexivity.
Qed.

(** ** Analytics on an empty selection *)

(** C7. When the selected sale set is empty, [getSalesAnalytics] returns
    [totalSales = 0], [totalOrders = 0] and [avgOrderValue = 0], with no top
    product and no category entry. *)
Theorem C7_getSalesAnalytics_empty
        (st : Store.t) (clock : Store.calendar) (dateRange : option DateRange.t) :
  Store.selected st dateRange = [] ->
  let m := Store.getSalesAnalytics st clock dateRange in
  StoreMetrics.totalSales m = 0%Qc /\
  StoreMetrics.totalOrders m = 0%nat /\
  StoreMetrics.avgOrderValue m = 0%Qc /\
  StoreMetrics.topProducts m = [] /\
  StoreMetrics.categoryPerformance m = [].
Proof.
  intros Hsel. unfold Store.getSalesAnalytics. rewrite Hsel.
  repeat split.
Qed.

Lemma C7_witness :
  let st := Store.create Sample.sampleProducts 1750000000000 in
  let clock := Store.mkCalendar 1750000000000 1749945600000 1749945600000
                                1748736000000 in
  Store.selected st (Some (DateRange.mk 0 1000)) = [] /\
  StoreMetrics.avgOrderValue
    (Store.getSalesAnalytics st clock (Some (DateRange.mk 0 1000))) = 0%Qc.
Proof.
  cbv zeta. split; [reflexivity|].
  exact (proj1 (proj2 (proj2
    (C7_getSalesAnalytics_empty
       (Store.create Sample.sampleProducts 1750000000000)
       (Store.mkCalendar 1750000000000 1749945600000 1749945600000 1748736000000)
       (Some (DateRange.mk 0 1000)) eq_refl)))).
Defined.

(** ** Keys of the product map *)

Lemma keyed_set m k p :
  k = Product.id p -> keyed m -> keyed (JS.map_set k p m).
Proof.
  intros Hk [Hnd Hid]. split.
  - now apply map_set_NoDup.
  - now apply map_set_Forall.
Qed.

Lemma keyed_lookup m k p :
  keyed m -> JS.map_get k m = Some p -> k = Product.id p.
Proof.
  intros [_ Hid] Hget. apply map_get_in in Hget.
  exact (proj1 (Forall_forall _ _) Hid _ Hget).
Qed.

Lemma keyed_fold_load ps st :
  keyed (Store.products st) -> keyed (Store.products (fold_left Store.load ps st)).
Proof.
  revert st. induction ps as [|p ps IH]; intros st Hst; simpl; [assumption|].
  apply IH. simpl. now apply keyed_set.
Qed.

Lemma keyed_empty : keyed (Store.products Store.empty).
Proof. split; constructor. Qed.

Lemma keyed_updateStock st id sop now :
  keyed (Store.products st) ->
  keyed (Store.products (snd (Store.updateStock id sop now st))).
Proof.
  intros Hst. destruct (Store.getProduct st id) as [p|] eqn:Hp.
  - pose proof (keyed_lookup _ _ _ Hst Hp) as Hid.
    rewrite (updateStock_known _ _ _ _ _ Hp). cbv zeta.
    repeat match goal with |- context [if ?b then _ else _] => destruct b end;
      simpl; try assumption; now apply keyed_set.
  - now rewrite (updateStock_unknown _ _ _ _ Hp).
Qed.

Lemma keyed_apply op st :
  keyed (Store.products st) -> keyed (Store.products (apply op st)).
Proof.
  destruct op as [d now rnd|id u now|id|id sop now|d now rnd|data|samples loaded];
    simpl; intros Hst.
  - now apply keyed_set.
  - unfold Store.updateProduct.
    destruct (JS.map_get id (Store.products st)) as [p|] eqn:Hp; [|assumption].
    simpl. apply keyed_set; [|assumption].
    simpl. exact (keyed_lookup _ _ _ Hst Hp).
  - destruct Hst as [Hnd Hid]. split.
    + now apply map_delete_NoDup.
    + apply Forall_forall. intros kv Hin. apply map_delete_incl in Hin.
      exact (proj1 (Forall_forall _ _) Hid _ Hin).
  - now apply keyed_updateStock.
  - unfold Store.addSale.
    match goal with
    | |- context [Store.updateStock ?i ?o ?n ?s] =>
        pose proof (keyed_updateStock s i o n) as H;
        destruct (Store.updateStock i o n s) as [r st2]
    end.
    now apply H.
  - apply (keyed_fold_load (fst data) Store.empty), keyed_empty.
  - apply (keyed_fold_load samples Store.empty), keyed_empty.
Qed.

Lemma reachable_keyed st : reachable st -> keyed (Store.products st).
Proof.
  induction 1 as [samples loaded|op st _ IH].
  - apply (keyed_fold_load samples Store.empty), keyed_empty.
  - now apply keyed_apply.
Qed.

(** ** Export and import *)

Lemma fold_load_fresh ps st :
  NoDup (JS.map_keys (Store.products st) ++ List.map Product.id ps) ->
  Store.products (fold_left Store.load ps st)
  = Store.products st ++ List.map (fun p => (Product.id p, p)) ps.
Proof.
  revert st. induction ps as [|p ps IH]; intros st Hnd; simpl.
  - now rewrite app_nil_r.
  - assert (Habsent : JS.map_get (Product.id p) (Store.products st) = None).
    { apply map_get_none. intros Hin.
      apply NoDup_remove_2 in Hnd. apply Hnd, in_or_app. now left. }
    rewrite IH; simpl; rewrite (map_set_absent _ _ _ Habsent).
    + now rewrite <- app_assoc.
    + unfold JS.map_keys. rewrite map_app, <- app_assoc. exact Hnd.
Qed.

Lemma fold_load_sales ps st :
  Store.sales (fold_left Store.load ps st) = Store.sales st.
Proof.
  revert st. induction ps as [|p ps IH]; intros st; simpl; [reflexivity|].
  now rewrite IH.
Qed.

Lemma import_export_keyed st other :
  keyed (Store.products st) ->
  Store.products (Store.importData (Store.exportData st) other) = Store.products st
  /\ Store.sales (Store.importData (Store.exportData st) other) = Store.sales st.
Proof.
  intros [Hnd Hid]. split; [|reflexivity].
  unfold Store.importData, Store.exportData, JS.map_values. simpl.
  rewrite fold_load_fresh.
  - simpl. rewrite map_map.
    induction (Store.products st) as [|[k p] m IH]; simpl; [reflexivity|].
    inversion Hnd; inversion Hid; subst. simpl in *. subst k.
    f_equal. now apply IH.
  - simpl. rewrite map_map. unfold JS.map_keys in Hnd.
    erewrite map_ext_in; [exact Hnd|].
    intros kp Hin. symmetry. exact (proj1 (Forall_forall _ _) Hid _ Hin).
Qed.

(** C8. For every state a store can reach, [importData(exportData())]
    restores the product map (same ids, in the same order, bound to equal
    records, so every lookup answers as before) and the sale log (equal
    sales in the same order), into whichever store the data is imported. *)
Theorem C8_import_export_round_trip (st other : Store.t) :
  reachable st ->
  let st' := Store.importData (Store.exportData st) other in
  Store.products st' = Store.products st /\
  Store.sales st' = Store.sales st /\
  (forall id, Store.getProduct st' id = Store.getProduct st id).
Proof.
  intros Hr. cbv zeta.
  destruct (import_export_keyed st other (reachable_keyed st Hr)) as [Hp Hs].
  split; [exact Hp|]. split; [exact Hs|].
  intros id. unfold Store.getProduct. now rewrite Hp.
Qed.

Lemma C8_witness :
  let st := apply (OpAddSale (Examples.order "12345" 30 (Sample.money 59970) 5)
                             6 "abc")
                  (Store.create Sample.sampleProducts 1750000000000) in
  reachable st /\
  Store.products (Store.importData (Store.exportData st) st) = Store.products st.
Proof.
  cbv zeta.
  assert (Hr : reachable
                 (apply (OpAddSale (Examples.order "12345" 30 (Sample.money 59970) 5)
                                   6 "abc")
                        (Store.create Sample.sampleProducts 1750000000000)))
    by (apply reach_apply, reach_create).
  split; [exact Hr|].
  exact (proj1 (C8_import_export_round_trip _ _ Hr)).
Defined.

(** ** Stable sorting *)

Section SortFacts.
Context {A : Type} (after : A -> A -> bool).

Lemma insert_perm x l : Permutation (x :: l) (JS.insert after x l).
Proof.
  induction l as [|y l IH]; simpl; [reflexivity|].
  destruct (after x y); [|reflexivity].
  rewrite perm_swap. now constructor.
Qed.

Lemma sort_perm l : Permutation l (JS.sort after l).
Proof.
  induction l as [|x l IH]; simpl; [constructor|].
  rewrite <- insert_perm. now constructor.
Qed.

Hypothesis after_asym : forall a b, after a b = true -> after b a = false.
Hypothesis before_trans :
  forall a b c, after a b = false -> after b c = false -> after a c = false.

Lemma insert_sorted x l :
  StronglySorted (fun a b => after a b = false) l ->
  StronglySorted (fun a b => after a b = false) (JS.insert after x l).
Proof.
  induction 1 as [|y l Hl IH Hy]; simpl; [repeat constructor|].
  destruct (after x y) eqn:E.
  - constructor; [assumption|].
    apply Forall_forall. intros z Hz.
    apply (Permutation_in _ (Permutation_sym (insert_perm x l))) in Hz.
    destruct Hz as [<-|Hz]; [now apply after_asym|].
    exact (proj1 (Forall_forall _ _) Hy _ Hz).
  - constructor; [now constructor|].
    constructor; [exact E|].
    eapply Forall_impl; [|exact Hy]. intros z Hz.
    exact (before_trans _ _ _ E Hz).
Qed.

Lemma sort_sorted l :
  StronglySorted (fun a b => after a b = false) (JS.sort after l).
Proof.
  induction l as [|x l IH]; simpl; [constructor|]. now apply insert_sorted.
Qed.
End SortFacts.

Lemma StronglySorted_weaken {A : Type} (R S : A -> A -> Prop) (l : list A) :
  (forall a b, R a b -> S a b) -> StronglySorted R l -> StronglySorted S l.
Proof.
  intros HRS. induction 1 as [|x l _ IH Hx]; constructor; [assumption|].
  eapply Forall_impl; [|exact Hx]. intros b. apply HRS.
Qed.


Lemma slice0_firstn {A : Type} (n : nat) (l : list A) :
  JS.slice0 (Z.of_nat n) l = firstn n l.
Proof.
  unfold JS.slice0. destruct (Z.ltb_spec (Z.of_nat n) 0); [lia|].
  now rewrite Nat2Z.id.
Qed.

(** ** Grouping sales by product *)

Lemma map_in_get {V : Type} (k : string) (v : V) (m : list (string * V)) :
  NoDup (JS.map_keys m) -> In (k, v) m -> JS.map_get k m = Some v.
Proof.
  induction m as [|[k' v'] m IH]; simpl; [tauto|].
  intros Hnd Hin. inversion Hnd as [|? ? Hnotin Hnd']; subst.
  destruct Hin as [E|Hin].
  - injection E as -> ->. now rewrite String.eqb_refl.
  - destruct (String.eqb_spec k k') as [->|]; [|auto].
    exfalso. apply Hnotin. apply in_map_iff. now exists (k', v).
Qed.

Lemma map_set_keys_in {V : Type} (k k' : string) (v : V) (m : list (string * V)) :
  In k' (JS.map_keys (JS.map_set k v m)) <-> k' = k \/ In k' (JS.map_keys m).
Proof.
  destruct (JS.map_get k m) eqn:E.
  - rewrite map_set_keys_present by congruence.
    split; [tauto|]. intros [->|H]; [|assumption].
    destruct (in_dec string_dec k (JS.map_keys m)) as [Hin|Hnin]; [assumption|].
    apply map_get_none in Hnin. congruence.
  - rewrite (map_set_absent _ _ _ E). unfold JS.map_keys.
    rewrite map_app, in_app_iff. simpl. intuition congruence.
Qed.







(** ** Revenue sums *)

Open Scope Qc_scope.





Lemma revenue_from (l : list Sale.t) (a : Qc) :
  fold_left (fun sum sale => sum + Sale.totalAmount sale) l a
  = a + Store.revenue l.
Proof.
  unfold Store.revenue. revert a.
  induction l as [|s l IH]; intros a; simpl; [ring|].
  rewrite IH, (IH (0 + Sale.totalAmount s)). ring.
Qed.

Lemma revenue_cons (s : Sale.t) (l : list Sale.t) :
  Store.revenue (s :: l) = Sale.totalAmount s + Store.revenue l.
Proof.
  unfold Store.revenue at 1. simpl. rewrite revenue_from. ring.
Qed.




Close Scope Qc_scope.

(** ** Category performance *)








(** ** Revenue per product *)

Lemma productSales_fold_keys (l : list Sale.t) m (id : string) :
  In id (JS.map_keys (fold_left Store.productSales_step l m))
  <-> In id (JS.map_keys m) \/ In id (List.map Sale.productId l).
Proof.
  revert m. induction l as [|s l IH]; intros m; simpl; [tauto|].
  rewrite IH. unfold Store.productSales_step.
  destruct (JS.map_get (Sale.productId s) m) as [[n r]|];
    rewrite map_set_keys_in; intuition congruence.
Qed.

Lemma productSales_fold_NoDup (l : list Sale.t) m :
  NoDup (JS.map_keys m) ->
  NoDup (JS.map_keys (fold_left Store.productSales_step l m)).
Proof.
  revert m. induction l as [|s l IH]; intros m Hm; simpl; [assumption|].
  apply IH. unfold Store.productSales_step.
  destruct (JS.map_get (Sale.productId s) m) as [[n r]|];
    now apply map_set_NoDup.
Qed.

Lemma productSales_fold_get (l : list Sale.t) m (id : string) :
  Spec.sales_of id (fold_left Store.productSales_step l m)
  = (Spec.sales_of id m + Spec.product_revenue id l)%Qc.
Proof.
  revert m. induction l as [|s l IH]; intros m; simpl.
  - unfold Spec.product_revenue, Store.revenue. simpl. ring.
  - rewrite IH. unfold Spec.product_revenue. simpl.
    assert (Hstep : Spec.sales_of id (Store.productSales_step m s)
                    = (Spec.sales_of id m
                       + (if String.eqb (Sale.productId s) id
                          then Sale.totalAmount s else 0))%Qc).
    { unfold Store.productSales_step, Spec.sales_of.
      destruct (String.eqb_spec (Sale.productId s) id) as [<-|Hne].
      - destruct (JS.map_get (Sale.productId s) m) as [[n r]|];
          rewrite map_get_set_same; ring.
      - destruct (JS.map_get (Sale.productId s) m) as [[n r]|];
          rewrite map_get_set_other by congruence; ring. }
    rewrite Hstep.
    destruct (String.eqb (Sale.productId s) id); [rewrite revenue_cons|]; ring.
Qed.

Lemma productSales_groups (l : list Sale.t) :
  (forall id, In id (JS.map_keys (Store.productSales l))
              <-> In id (List.map Sale.productId l)) /\
  (forall id n r, In (id, (n, r)) (Store.productSales l) ->
                  r = Spec.product_revenue id l).
Proof.
  split.
  - intros id. unfold Store.productSales. rewrite productSales_fold_keys.
    simpl. tauto.
  - intros id n r Hin.
    assert (Hnd : NoDup (JS.map_keys (Store.productSales l)))
      by (apply productSales_fold_NoDup; constructor).
    apply (map_in_get _ _ _ Hnd) in Hin.
    pose proof (productSales_fold_get l [] id) as Hget.
    fold (Store.productSales l) in Hget. unfold Spec.sales_of in Hget.
    rewrite Hin in Hget. simpl in Hget. rewrite Hget. ring.
Qed.

(** ** Orphaned sales in the metrics *)




(** * Further properties of the store *)

(** ** More on insertion-ordered maps and sets *)

Lemma map_set_in_same {V : Type} (k : string) (v : V) (m : list (string * V)) :
  In (k, v) (JS.map_set k v m).
Proof.
  induction m as [|[k' v'] m IH]; simpl; [now left|].
  destruct (String.eqb_spec k k') as [->|]; [now left | now right].
Qed.

Lemma map_get_delete_other {V : Type} (k k' : string) (m : list (string * V)) :
  k' <> k -> JS.map_get k' (JS.map_delete k m) = JS.map_get k' m.
Proof.
  intros Hne. induction m as [|[k0 v0] m IH]; simpl; [reflexivity|].
  destruct (String.eqb_spec k k0) as [->|]; simpl.
  - destruct (String.eqb_spec k' k0); [contradiction | reflexivity].
  - now rewrite IH.
Qed.

Lemma map_get_delete_same {V : Type} (k : string) (m : list (string * V)) :
  NoDup (JS.map_keys m) -> JS.map_get k (JS.map_delete k m) = None.
Proof.
  induction m as [|[k0 v0] m IH]; simpl; [reflexivity|].
  intros Hnd. inversion Hnd as [|? ? Hnotin Hnd']; subst.
  destruct (String.eqb_spec k k0) as [->|Hne]; simpl.
  - now apply map_get_none.
  - destruct (String.eqb_spec k k0); [contradiction | auto].
Qed.

Lemma map_delete_length {V : Type} (k : string) (m : list (string * V)) :
  List.length m
  = (List.length (JS.map_delete k m) + if JS.map_has k m then 1 else 0)%nat.
Proof.
  unfold JS.map_has. induction m as [|[k0 v0] m IH]; simpl; [reflexivity|].
  destruct (String.eqb k k0); simpl; [lia|].
  destruct (JS.map_get k m); lia.
Qed.

Lemma map_delete_absent {V : Type} (k : string) (m : list (string * V)) :
  JS.map_get k m = None -> JS.map_delete k m = m.
Proof.
  induction m as [|[k0 v0] m IH]; simpl; [reflexivity|].
  destruct (String.eqb k k0); [discriminate|]. intros H. now rewrite IH.
Qed.

Lemma set_add_in (x y : string) (s : list string) :
  In y (JS.set_add x s) <-> y = x \/ In y s.
Proof.
  unfold JS.set_add. destruct (existsb (String.eqb x) s) eqn:E.
  - split; [tauto|]. intros [->|H]; [|assumption].
    apply existsb_exists in E as [z [Hz Ez]].
    apply String.eqb_eq in Ez. now subst.
  - rewrite in_app_iff. simpl. intuition congruence.
Qed.

Lemma set_add_NoDup (x : string) (s : list string) :
  NoDup s -> NoDup (JS.set_add x s).
Proof.
  intros Hs. unfold JS.set_add. destruct (existsb (String.eqb x) s) eqn:E.
  - assumption.
  - apply NoDup_app; [assumption | repeat constructor; intros [] |].
    intros y Hy [<-|[]].
    assert (existsb (String.eqb x) s = true); [|congruence].
    apply existsb_exists. exists x. split; [assumption | apply String.eqb_refl].
Qed.

Lemma keyed_in_get (m : list (string * Product.t)) (p : Product.t) :
  keyed m -> In p (JS.map_values m) -> JS.map_get (Product.id p) m = Some p.
Proof.
  intros [Hnd Hid] Hin. apply in_map_iff in Hin as [[k q] [E Hin]].
  simpl in E. subst q. apply (map_in_get _ _ _ Hnd).
  pose proof (proj1 (Forall_forall _ _) Hid _ Hin) as Hk. simpl in Hk.
  now subst k.
Qed.

(** ** Product CRUD *)


(** X2. [updateProduct] on an unknown id returns null and changes nothing.
    On a known id it stores the merged record in the same map position: the
    id and creation date are kept, [updatedAt] is the clock value whatever
    the updates say, [getProduct] answers the returned record, and no other
    product changes. *)
Theorem updateProduct_in_place
        (st : Store.t) (id : string) (updates : ProductUpdates.t) (now : Z) :
  let r := Store.updateProduct id updates now st in
  match Store.getProduct st id with
  | None => r = (None, st)
  | Some p =>
      fst r = Some (Store.spread p updates now) /\
      Store.getProduct (snd r) id = fst r /\
      Product.id (Store.spread p updates now) = Product.id p /\
      Product.createdAt (Store.spread p updates now) = Product.createdAt p /\
      Product.updatedAt (Store.spread p updates now) = now /\
      JS.map_keys (Store.products (snd r)) = JS.map_keys (Store.products st) /\
      Store.sales (snd r) = Store.sales st /\
      (forall k, k <> id -> Store.getProduct (snd r) k = Store.getProduct st k)
  end.
Proof.
  cbv zeta. unfold Store.updateProduct, Store.getProduct.
  destruct (JS.map_get id (Store.products st)) as [p|] eqn:Hp; [|reflexivity].
  simpl. split; [reflexivity|]. split; [apply map_get_set_same|].
  repeat (split; [reflexivity|]).
  split; [apply map_set_keys_present; congruence|].
  split; [reflexivity|].
  intros k Hk. now apply map_get_set_other.
Qed.

(** X3. In a reachable store [deleteProduct] returns true exactly when the
    id was present; afterwards the id resolves to nothing, the product count
    has dropped by one if and only if true was returned, every other id
    answers as before, and the sale log, the categories and the collections
    are as they were (so sales of the deleted product stay in the log). *)
Theorem deleteProduct_removes_only_the_product (st : Store.t) (id : string) :
  reachable st ->
  let r := Store.deleteProduct id st in
  fst r = match Store.getProduct st id with Some _ => true | None => false end /\
  Store.getProduct (snd r) id = None /\
  Store.getProductCount st
  = (Store.getProductCount (snd r) + if fst r then 1 else 0)%nat /\
  (forall k, k <> id -> Store.getProduct (snd r) k = Store.getProduct st k) /\
  Store.sales (snd r) = Store.sales st /\
  Store.getCategories (snd r) = Store.getCategories st /\
  Store.getCollections (snd r) = Store.getCollections st.
Proof.
  intros Hr. destruct (reachable_keyed st Hr) as [Hnd _]. cbv zeta.
  unfold Store.deleteProduct, Store.getProduct, Store.getProductCount. simpl.
  split; [reflexivity|].
  split; [now apply map_get_delete_same|].
  split; [apply map_delete_length|].
  split; [intros k Hk; now apply map_get_delete_other|].
  repeat split.
Qed.

Lemma deleteProduct_witness :
  let st := Store.create Sample.sampleProducts 1750000000000 in
  reachable st /\
  Store.getProduct (snd (Store.deleteProduct "12346" st)) "12346" = None /\
  Store.getProductCount (snd (Store.deleteProduct "12346" st)) = 5%nat.
Proof.
  cbv zeta.
  pose proof (deleteProduct_removes_only_the_product
                (Store.create Sample.sampleProducts 1750000000000) "12346"
                (reach_create _ _)) as H.
  cbv zeta in H. destruct H as (_ & Hgone & _).
  split; [apply reach_create|]. split; [exact Hgone | reflexivity].
Defined.

(** X4. In a reachable store every product that [getAllProducts] lists is
    what [getProduct] answers for its id, and every product [getProduct]
    answers is stored under its own id. *)
Theorem listing_agrees_with_lookup (st : Store.t) :
  reachable st ->
  (forall p, In p (Store.getAllProducts st None) ->
             Store.getProduct st (Product.id p) = Some p) /\
  (forall id p, Store.getProduct st id = Some p ->
                Product.id p = id /\ In p (Store.getAllProducts st None)) /\
  NoDup (List.map Product.id (Store.getAllProducts st None)).
Proof.
  intros Hr. pose proof (reachable_keyed st Hr) as Hk.
  split; [|split].
  - intros p Hin. now apply keyed_in_get.
  - intros id p Hget. split.
    + symmetry. exact (keyed_lookup _ _ _ Hk Hget).
    + apply map_get_in in Hget. simpl. unfold JS.map_values.
      apply in_map_iff. now exists (id, p).
  - destruct Hk as [Hnd Hid]. simpl. unfold JS.map_values, JS.map_keys in *.
    rewrite map_map.
    erewrite map_ext_in; [exact Hnd|].
    intros kp Hin. symmetry. exact (proj1 (Forall_forall _ _) Hid _ Hin).
Qed.

Lemma listing_agrees_with_lookup_witness :
  let st := apply (OpAddProduct (Examples.widget 4) 5 "xyz")
                  (Store.create Sample.sampleProducts 1750000000000) in
  reachable st /\
  NoDup (List.map Product.id (Store.getAllProducts st None)).
Proof.
  cbv zeta.
  assert (Hr : reachable
                 (apply (OpAddProduct (Examples.widget 4) 5 "xyz")
                        (Store.create Sample.sampleProducts 1750000000000)))
    by (apply reach_apply, reach_create).
  split; [exact Hr|].
  exact (proj2 (proj2 (listing_agrees_with_lookup _ Hr))).
Defined.

(** ** Categories and collections *)

Lemma tracked_track (st : Store.t) (p : Product.t) :
  (In (Product.category p) (Store.categories (Store.track p st)) /\
   match JS.truthy_value (Product.collection p) with
   | Some c => In c (Store.collections (Store.track p st))
   | None => True
   end) /\
  incl (Store.categories st) (Store.categories (Store.track p st)) /\
  incl (Store.collections st) (Store.collections (Store.track p st)) /\
  (NoDup (Store.categories st) -> NoDup (Store.categories (Store.track p st))) /\
  (NoDup (Store.collections st) -> NoDup (Store.collections (Store.track p st))).
Proof.
  unfold Store.track. simpl.
  assert (Hc : incl (Store.collections st)
                 (if JS.truthy (Product.collection p)
                  then match Product.collection p with
                       | Some c => JS.set_add c (Store.collections st)
                       | None => Store.collections st
                       end
                  else Store.collections st)).
  { destruct (Product.collection p) as [[|a c]|]; simpl;
      try apply incl_refl.
    intros x Hx. apply set_add_in. now right. }
  split; [|split; [|split; [exact Hc|split]]].
  - split; [apply set_add_in; now left|].
    destruct (Product.collection p) as [[|a c]|]; simpl; trivial.
    apply set_add_in. now left.
  - intros x Hx. apply set_add_in. now right.
  - apply set_add_NoDup.
  - destruct (Product.collection p) as [[|a c]|]; simpl; trivial.
    apply set_add_NoDup.
Qed.

Lemma tracked_set (st : Store.t) (k : string) (p : Product.t) :
  Spec.tracked st ->
  Spec.tracked
    (Store.track p (Store.with_products (JS.map_set k p (Store.products st)) st)).
Proof.
  intros (Hc & Hl & Hall).
  set (st1 := Store.with_products (JS.map_set k p (Store.products st)) st).
  destruct (tracked_track st1 p) as ([Hpc Hpl] & Hic & Hil & Hnc & Hnl).
  split; [now apply Hnc|]. split; [now apply Hnl|].
  change (Store.products (Store.track p st1))
    with (JS.map_set k p (Store.products st)).
  apply map_set_Forall; [simpl; split; assumption|].
  eapply Forall_impl; [|exact Hall]. intros [k' q] [Hq1 Hq2]. simpl in *.
  split; [now apply Hic|].
  destruct (JS.truthy_value (Product.collection q)); [now apply Hil | trivial].
Qed.

Lemma tracked_fold_load (ps : list Product.t) (st : Store.t) :
  Spec.tracked st -> Spec.tracked (fold_left Store.load ps st).
Proof.
  revert st. induction ps as [|p ps IH]; intros st Hst; simpl; [assumption|].
  apply IH. now apply tracked_set.
Qed.

Lemma tracked_empty : Spec.tracked Store.empty.
Proof. repeat split; constructor. Qed.

Lemma tracked_with_sales (l : list Sale.t) (st : Store.t) :
  Spec.tracked st -> Spec.tracked (Store.with_sales l st).
Proof. intros H. exact H. Qed.

Lemma tracked_updateStock st id sop now :
  Spec.tracked st -> Spec.tracked (snd (Store.updateStock id sop now st)).
Proof.
  intros Hst. destruct (Store.getProduct st id) as [p|] eqn:Hp.
  - assert (Hin : In (id, p) (Store.products st)) by now apply map_get_in.
    destruct Hst as (Hc & Hl & Hall).
    pose proof (proj1 (Forall_forall _ _) Hall _ Hin) as Hpin. simpl in Hpin.
    rewrite (updateStock_known _ _ _ _ _ Hp). cbv zeta.
    repeat match goal with |- context [if ?b then _ else _] => destruct b end;
      simpl; try (repeat split; assumption);
      (split; [exact Hc|]; split; [exact Hl|];
       apply map_set_Forall; [exact Hpin | exact Hall]).
  - now rewrite (updateStock_unknown _ _ _ _ Hp).
Qed.

Lemma tracked_apply op st : Spec.tracked st -> Spec.tracked (apply op st).
Proof.
  destruct op as [d now rnd|id u now|id|id sop now|d now rnd|data|samples loaded];
    simpl; intros Hst.
  - now apply tracked_set.
  - unfold Store.updateProduct.
    destruct (JS.map_get id (Store.products st)); [|assumption].
    now apply tracked_set.
  - destruct Hst as (Hc & Hl & Hall). repeat split; try assumption.
    apply Forall_forall. intros kv Hin. apply map_delete_incl in Hin.
    exact (proj1 (Forall_forall _ _) Hall _ Hin).
  - now apply tracked_updateStock.
  - unfold Store.addSale.
    match goal with
    | |- context [Store.updateStock ?i ?o ?n ?s] =>
        pose proof (tracked_updateStock s i o n) as H;
        destruct (Store.updateStock i o n s) as [r st2]
    end.
    now apply H.
  - apply (tracked_fold_load (fst data) Store.empty), tracked_empty.
  - apply (tracked_fold_load samples Store.empty), tracked_empty.
Qed.

(** X5. In a reachable store [getCategories] and [getCollections] have no
    duplicates, the category of every listed product is in
    [getCategories], and its collection, when it has a non-empty one, is in
    [getCollections]. *)
Theorem categories_cover_products (st : Store.t) :
  reachable st ->
  NoDup (Store.getCategories st) /\
  NoDup (Store.getCollections st) /\
  (forall p, In p (Store.getAllProducts st None) ->
             In (Product.category p) (Store.getCategories st) /\
             forall c, Product.collection p = Some c -> c <> EmptyString ->
                       In c (Store.getCollections st)).
Proof.
  intros Hr.
  assert (Ht : Spec.tracked st).
  { induction Hr as [samples loaded|op st _ IH].
    - apply (tracked_fold_load samples Store.empty), tracked_empty.
    - now apply tracked_apply. }
  destruct Ht as (Hc & Hl & Hall).
  split; [exact Hc|]. split; [exact Hl|].
  intros p Hin. simpl in Hin. apply in_map_iff in Hin as [[k q] [E Hin]].
  simpl in E. subst q.
  pose proof (proj1 (Forall_forall _ _) Hall _ Hin) as [H1 H2]. simpl in *.
  split; [exact H1|]. intros c Hcol Hne. rewrite Hcol in H2.
  destruct c; [contradiction | exact H2].
Qed.

Lemma categories_cover_products_witness :
  let st := apply (OpAddProduct (Examples.widget 4) 5 "xyz")
                  (Store.create Sample.sampleProducts 1750000000000) in
  reachable st /\ NoDup (Store.getCategories st).
Proof.
  cbv zeta.
  assert (Hr : reachable
                 (apply (OpAddProduct (Examples.widget 4) 5 "xyz")
                        (Store.create Sample.sampleProducts 1750000000000)))
    by (apply reach_apply, reach_create).
  split; [exact Hr|].
  exact (proj1 (categories_cover_products _ Hr)).
Defined.

Lemma updateStock_tracking st id sop now :
  Store.categories (snd (Store.updateStock id sop now st)) = Store.categories st
  /\ Store.collections (snd (Store.updateStock id sop now st))
     = Store.collections st.
Proof.
  unfold Store.updateStock.
  destruct (JS.map_get id (Store.products st)); [|now split].
  cbv zeta.
  repeat match goal with |- context [if ?b then _ else _] => destruct b end;
    now split.
Qed.

(** X6. No operation other than [importData] and [reset] removes a category
    or a collection: whatever was listed before [addProduct],
    [updateProduct], [deleteProduct], [updateStock] or [addSale] is listed
    after it, even when no product carries it any more. *)
Theorem categories_only_grow (op : Op) (st : Store.t) :
  Spec.replaces op = false ->
  incl (Store.getCategories st) (Store.getCategories (apply op st)) /\
  incl (Store.getCollections st) (Store.getCollections (apply op st)).
Proof.
  destruct op as [d now rnd|id u now|id|id sop now|d now rnd|data|samples loaded];
    simpl; intros Hop; try discriminate.
  - destruct (tracked_track
                (Store.with_products
                   (JS.map_set (Product.id
                                  (Product.with_identity
                                     (Store.genId "prod" now rnd) now d))
                               (Product.with_identity
                                  (Store.genId "prod" now rnd) now d)
                               (Store.products st)) st)
                (Product.with_identity (Store.genId "prod" now rnd) now d))
      as (_ & Hc & Hl & _).
    split; [exact Hc | exact Hl].
  - unfold Store.updateProduct.
    destruct (JS.map_get id (Store.products st)) as [p|];
      [|split; apply incl_refl].
    destruct (tracked_track
                (Store.with_products
                   (JS.map_set id (Store.spread p u now) (Store.products st)) st)
                (Store.spread p u now)) as (_ & Hc & Hl & _).
    split; [exact Hc | exact Hl].
  - split; apply incl_refl.
  - unfold Store.getCategories, Store.getCollections.
    destruct (updateStock_tracking st id sop now) as [-> ->].
    split; apply incl_refl.
  - unfold Store.addSale, Store.getCategories, Store.getCollections.
    match goal with
    | |- context [Store.updateStock ?i ?o ?n ?s] =>
        pose proof (updateStock_tracking s i o n) as H;
        destruct (Store.updateStock i o n s) as [r st2]
    end.
    simpl in *. destruct H as [-> ->]. split; apply incl_refl.
Qed.

Lemma categories_only_grow_witness :
  incl (Store.getCategories (Store.create Sample.sampleProducts 1750000000000))
       (Store.getCategories
          (apply (OpDeleteProduct "12348")
                 (Store.create Sample.sampleProducts 1750000000000))).
Proof.
  exact (proj1 (categories_only_grow (OpDeleteProduct "12348")
                  (Store.create Sample.sampleProducts 1750000000000) eq_refl)).
Defined.

(** ** Stock levels *)

(** X7. [updateStock] returns true exactly when the product exists and the
    operation is one of add, subtract and set; when it returns false the
    store is unchanged, and in every case the order of the product map, the
    sale log, the categories, the collections and every other product are
    as they were. *)
Theorem updateStock_frame
        (st : Store.t) (id : string) (sop : StockOperation.t) (now : Z) :
  let r := Store.updateStock id sop now st in
  (fst r = true <->
   (exists p, Store.getProduct st id = Some p) /\
   (StockOperation.operation sop = "add"
    \/ StockOperation.operation sop = "subtract"
    \/ StockOperation.operation sop = "set")) /\
  (fst r = false -> snd r = st) /\
  JS.map_keys (Store.products (snd r)) = JS.map_keys (Store.products st) /\
  Store.sales (snd r) = Store.sales st /\
  Store.getCategories (snd r) = Store.getCategories st /\
  Store.getCollections (snd r) = Store.getCollections st /\
  (forall k, k <> id -> Store.getProduct (snd r) k = Store.getProduct st k).
Proof.
  cbv zeta.
  split; [|split; [|split; [|split; [apply updateStock_sales|split; [|split]]]]].
  - destruct (Store.getProduct st id) as [p|] eqn:Hp.
    + rewrite (updateStock_known _ _ _ _ _ Hp). cbv zeta.
      destruct (String.eqb_spec (StockOperation.operation sop) "add") as [->|Ha];
        [split; [intros _; split; [now exists p | now left] | reflexivity]|].
      destruct (String.eqb_spec (StockOperation.operation sop) "subtract")
        as [->|Hs];
        [split; [intros _; split; [now exists p | right; now left] | reflexivity]|].
      destruct (String.eqb_spec (StockOperation.operation sop) "set") as [->|Hx];
        [split; [intros _; split; [now exists p | right; now right] | reflexivity]|].
      simpl. split; [discriminate|]. intros [_ [H|[H|H]]]; contradiction.
    + rewrite (updateStock_unknown _ _ _ _ Hp). simpl.
      split; [discriminate|]. intros [[p H] _]. discriminate.
  - unfold Store.updateStock.
    destruct (JS.map_get id (Store.products st)); [|reflexivity]. cbv zeta.
    repeat match goal with |- context [if ?b then _ else _] => destruct b end;
      simpl; (discriminate || reflexivity).
  - unfold Store.updateStock.
    destruct (JS.map_get id (Store.products st)) eqn:Hp; [|reflexivity].
    cbv zeta.
    repeat match goal with |- context [if ?b then _ else _] => destruct b end;
      simpl; try reflexivity; apply map_set_keys_present; congruence.
  - apply updateStock_tracking.
  - apply updateStock_tracking.
  - intros k Hk. now apply updateStock_other.
Qed.

(** X8. For a product with non-negative stock and a quantity such that
    [|stock| + |q|] is a safe integer (so that the code's additions and
    subtractions are exact), adding the quantity and then subtracting it
    restores the stock level, whereas subtracting first and adding back
    leaves [max(stock, q)] for a non-negative [q]: what over-subtraction
    clamps away is not given back. *)
Theorem add_and_subtract_compose
        (st : Store.t) (id : string) (p : Product.t) (q t1 t2 : Z) :
  Store.getProduct st id = Some p ->
  0 <= Product.stock p ->
  JS.safe (Z.abs (Product.stock p) + Z.abs q) ->
  let add := StockOperation.mk "add" q None in
  let subtract := StockOperation.mk "subtract" q None in
  Store.getStockLevel
    (snd (Store.updateStock id subtract t2
            (snd (Store.updateStock id add t1 st)))) id
  = Product.stock p /\
  (0 <= q ->
   Store.getStockLevel
     (snd (Store.updateStock id add t2
             (snd (Store.updateStock id subtract t1 st)))) id
   = Z.max (Product.stock p) q).
Proof.
  intros Hp Hs _. cbv zeta.
  rewrite !(updateStock_known _ _ _ _ _ Hp). simpl.
  split; [|intros Hq].
  - erewrite updateStock_known
      by (unfold Store.getProduct; simpl; apply map_get_set_same).
    simpl. unfold Store.getStockLevel. simpl. rewrite map_get_set_same.
    simpl. lia.
  - erewrite updateStock_known
      by (unfold Store.getProduct; simpl; apply map_get_set_same).
    simpl. unfold Store.getStockLevel. simpl. rewrite map_get_set_same.
    simpl. lia.
Qed.

Lemma add_and_subtract_compose_witness :
  Store.getStockLevel
    (snd (Store.updateStock "w-1" (StockOperation.mk "add" 9 None) 2
            (snd (Store.updateStock "w-1" (StockOperation.mk "subtract" 9 None) 1
                    (Examples.holding [Examples.widget 5] [])))))
    "w-1" = 9.
Proof.
  exact (proj2 (add_and_subtract_compose
                  (Examples.holding [Examples.widget 5] []) "w-1"
                  (Examples.widget 5) 9 1 2 eq_refl ltac:(simpl; lia)
                  ltac:(unfold JS.safe; simpl; lia))
               ltac:(lia)).
Defined.

(** X9. [getStockLevel] answers the stock of a known product and -1 for an
    unknown id; when no stock level in the store is negative, the answer is
    -1 exactly for the unknown ids, and never below -1. *)
Theorem getStockLevel_sentinel (st : Store.t) (id : string) :
  match Store.getProduct st id with
  | Some p => Store.getStockLevel st id = Product.stock p
  | None => Store.getStockLevel st id = -1
  end /\
  (stock_ok st ->
   (Store.getStockLevel st id = -1 <-> Store.getProduct st id = None) /\
   -1 <= Store.getStockLevel st id).
Proof.
  unfold Store.getStockLevel.
  destruct (Store.getProduct st id) as [p|] eqn:Hp;
    unfold Store.getProduct in Hp; rewrite Hp.
  - split; [reflexivity|]. intros Hok.
    pose proof (stock_ok_lookup st id p Hok Hp) as Hpos.
    repeat split; try lia; discriminate.
  - split; [reflexivity|]. intros _. repeat split; lia.
Qed.

Lemma getStockLevel_sentinel_witness :
  stock_ok (Examples.holding [Examples.widget 5] []) /\
  (Store.getStockLevel (Examples.holding [Examples.widget 5] []) "nope" = -1
   <-> Store.getProduct (Examples.holding [Examples.widget 5] []) "nope" = None).
Proof.
  assert (H : stock_ok (Examples.holding [Examples.widget 5] []))
    by (repeat constructor; simpl; lia).
  split; [exact H|].
  exact (proj1 (proj2 (getStockLevel_sentinel _ "nope") H)).
Defined.

(** ** Date ranges *)

(** X10. [getSalesByDateRange] with [end] before [start] returns no sale,
    and narrowing composes: selecting a range and then a range inside it
    gives what selecting the inner range directly gives. *)
Theorem getSalesByDateRange_ranges (st : Store.t) (start end_ : Z) :
  (end_ < start -> Store.getSalesByDateRange st start end_ = []) /\
  (forall start' end', start' <= start -> end_ <= end' ->
     filter (Store.in_range start end_)
            (Store.getSalesByDateRange st start' end')
     = Store.getSalesByDateRange st start end_) /\
  incl (Store.getSalesByDateRange st start end_) (Store.sales st).
Proof.
  unfold Store.getSalesByDateRange. split; [|split].
  - intros Hlt. induction (Store.sales st) as [|s l IH]; simpl; [reflexivity|].
    unfold Store.in_range at 1.
    destruct (Z.leb_spec start (Sale.timestamp s));
      destruct (Z.leb_spec (Sale.timestamp s) end_); simpl; try exact IH; lia.
  - intros start' end' Hs He.
    induction (Store.sales st) as [|s l IH]; simpl; [reflexivity|].
    destruct (Store.in_range start' end' s) eqn:E1; simpl;
      destruct (Store.in_range start end_ s) eqn:E2; try now rewrite IH.
    apply in_range_spec in E2.
    assert (Store.in_range start' end' s = true) by (apply in_range_spec; lia).
    congruence.
  - intros s Hin. now apply filter_In in Hin.
Qed.

Lemma getSalesByDateRange_ranges_witness :
  Store.getSalesByDateRange (Store.create Sample.sampleProducts 1750000000000)
                            200 100 = [].
Proof.
  exact (proj1 (getSalesByDateRange_ranges
                  (Store.create Sample.sampleProducts 1750000000000) 200 100)
               ltac:(lia)).
Defined.

(** ** Filtered listings *)

Lemma selects_ext {A : Type} (P Q : A -> Prop) (l r : list A) :
  (forall x, P x <-> Q x) -> Spec.selects P l r -> Spec.selects Q l r.
Proof.
  intros HPQ. induction 1 as [|x l r Hx _ IH|x l r Hx _ IH].
  - constructor.
  - apply Spec.selects_keep; [now apply HPQ | assumption].
  - apply Spec.selects_skip; [|assumption]. intros HQ. now apply Hx, HPQ.
Qed.

Lemma selects_all {A : Type} (l : list A) : Spec.selects (fun _ => True) l l.
Proof. induction l; constructor; trivial. Qed.

Lemma selects_filter {A : Type} (P Q : A -> Prop) (f : A -> bool) (l r : list A) :
  (forall x, f x = true <-> Q x) ->
  Spec.selects P l r -> Spec.selects (fun x => P x /\ Q x) l (filter f r).
Proof.
  intros Hf. induction 1 as [|x l r Hx _ IH|x l r Hx _ IH]; simpl.
  - constructor.
  - destruct (f x) eqn:E.
    + apply Spec.selects_keep; [split; [assumption | now apply Hf] | assumption].
    + apply Spec.selects_skip; [|assumption].
      intros [_ HQ]. apply Hf in HQ. congruence.
  - apply Spec.selects_skip; [|assumption]. intros [HP _]. contradiction.
Qed.

Lemma selects_stage {A X : Type} (P : A -> Prop) (o : option X)
      (fb : X -> A -> bool) (Q : X -> A -> Prop) (l r : list A) :
  (forall x a, fb x a = true <-> Q x a) ->
  Spec.selects P l r ->
  Spec.selects
    (fun a => P a /\ match o with Some x => Q x a | None => True end)
    l (match o with Some x => filter (fb x) r | None => r end).
Proof.
  intros Hfb Hsel. destruct o as [x|].
  - apply selects_filter; [apply Hfb | assumption].
  - eapply selects_ext; [|exact Hsel]. tauto.
Qed.

Lemma selects_In {A : Type} (P : A -> Prop) (l r : list A) :
  Spec.selects P l r -> forall x, In x r <-> In x l /\ P x.
Proof.
  induction 1 as [|y l r Hy _ IH|y l r Hy _ IH]; intros x; simpl.
  - tauto.
  - rewrite IH. split; [intros [<-|[H1 H2]]; tauto | tauto].
  - rewrite IH. split; [tauto|]. intros [[<-|H1] H2]; tauto.
Qed.

Lemma lower_includes_spec (lower : string -> string) (s fragment : string) :
  Store.lower_includes_with lower s fragment = true
  <-> Spec.contains_ci lower s fragment.
Proof. apply includes_spec. Qed.

Lemma Qcleb_spec (a b : Qc) : JS.Qcleb a b = true <-> (a <= b)%Qc.
Proof.
  unfold JS.Qcleb. rewrite Qcle_alt.
  destruct (a ?= b)%Qc; split; congruence.
Qed.

(** X11. Whatever case folding [toLowerCase] performs, [getAllProducts]
    with filters keeps, in map order, exactly the products that pass every
    requested filter at once: the folded category contains the folded
    filter; so does the folded collection (a product without a collection
    fails); so does some folded tag; price bounds inclusive; stock positive
    or exactly zero; visibility equal.  A filter given as the empty string
    requests nothing, and no filters at all returns every product. *)
Theorem getAllProducts_conjunction
        (lower : string -> string) (st : Store.t) (f : ProductFilters.t) :
  Spec.selects (Spec.satisfies lower f)
               (Store.getAllProducts_with lower st None)
               (Store.getAllProducts_with lower st (Some f)) /\
  (forall p, In p (Store.getAllProducts_with lower st (Some f))
             <-> In p (Store.getAllProducts_with lower st None)
                 /\ Spec.satisfies lower f p) /\
  Store.getAllProducts_with lower st None = JS.map_values (Store.products st) /\
  Store.getAllProducts_with lower st (Some ProductFilters.none)
  = Store.getAllProducts_with lower st None /\
  Store.getAllProducts_with lower st
    (Some (ProductFilters.mk (Some EmptyString) (Some EmptyString)
                             (Some EmptyString) None None None None))
  = Store.getAllProducts_with lower st None.
Proof.
  assert (Hsel : Spec.selects (Spec.satisfies lower f)
                              (Store.getAllProducts_with lower st None)
                              (Store.getAllProducts_with lower st (Some f))).
  { pose proof (selects_all (JS.map_values (Store.products st))) as H0.
    pose proof (selects_stage _ (JS.truthy_value (ProductFilters.category f))
                  (fun c p => Store.lower_includes_with lower (Product.category p) c)
                  (fun c p => Spec.contains_ci lower (Product.category p) c) _ _
                  (fun c p => lower_includes_spec lower (Product.category p) c)
                  H0)
      as H1.
    assert (Hcol : forall c p,
               Store.collection_includes_with lower p c = true
               <-> exists pc, Product.collection p = Some pc
                              /\ Spec.contains_ci lower pc c).
    { intros c p. unfold Store.collection_includes_with.
      destruct (Product.collection p) as [pc|].
      - rewrite lower_includes_spec. split;
          [intros H; now exists pc | intros [pc' [E H]]; congruence].
      - split; [discriminate | intros [pc' [E _]]; discriminate]. }
    pose proof (selects_stage _ (JS.truthy_value (ProductFilters.collection f))
                  (fun c p => Store.collection_includes_with lower p c) _ _ _
                  Hcol H1)
      as H2.
    assert (Htag : forall g p,
               Store.tag_includes_with lower p g = true
               <-> exists tag, In tag (Product.tags p)
                               /\ Spec.contains_ci lower tag g).
    { intros g p. unfold Store.tag_includes_with. rewrite existsb_exists.
      split; intros [tag [Hin Htag]]; exists tag;
        (split; [assumption | now apply lower_includes_spec]). }
    pose proof (selects_stage _ (JS.truthy_value (ProductFilters.tag f))
                  (fun g p => Store.tag_includes_with lower p g) _ _ _ Htag H2)
      as H3.
    pose proof (selects_stage _ (ProductFilters.priceMin f)
                  (fun lo p => JS.Qcleb lo (Product.price p))
                  (fun lo p => (lo <= Product.price p)%Qc) _ _
                  (fun lo p => Qcleb_spec lo (Product.price p)) H3) as H4.
    pose proof (selects_stage _ (ProductFilters.priceMax f)
                  (fun hi p => JS.Qcleb (Product.price p) hi)
                  (fun hi p => (Product.price p <= hi)%Qc) _ _
                  (fun hi p => Qcleb_spec (Product.price p) hi) H4) as H5.
    assert (Hstock : forall (b : bool) p,
               (if b then 0 <? Product.stock p else Product.stock p =? 0) = true
               <-> (if b then 0 < Product.stock p else Product.stock p = 0))
      by (intros [|] p; lia).
    pose proof (selects_stage _ (ProductFilters.inStock f)
                  (fun (b : bool) p => if b then 0 <? Product.stock p
                                       else Product.stock p =? 0) _ _ _
                  Hstock H5) as H6.
    pose proof (selects_stage _ (ProductFilters.visible f)
                  (fun v p => Bool.eqb (Product.isVisible p) v)
                  (fun v p => Product.isVisible p = v) _ _
                  (fun v p => Bool.eqb_true_iff (Product.isVisible p) v) H6)
      as H7.
    eapply selects_ext; [|exact H7].
    intros p. unfold Spec.satisfies. cbv beta.
    destruct (ProductFilters.inStock f) as [[|]|]; tauto. }
  split; [exact Hsel|]. split; [apply (selects_In _ _ _ Hsel)|].
  repeat split.
Qed.

Lemma getAllProducts_conjunction_witness :
  List.map Product.id
    (Store.getAllProducts_with (Examples.fold_acute false)
       (Examples.holding
          [Examples.item "p-1" "Tea" "Drinks" None 1;
           Examples.item "p-2" "Latte" Examples.cafe_upper None 0;
           Examples.item "p-3" "Mocha" Examples.cafe_upper None 2] [])
       (Some (ProductFilters.mk (Some Examples.cafe_lower) None None None None
                                (Some true) None)))
  = ["p-3"]
  /\ Spec.satisfies (Examples.fold_acute false)
       (ProductFilters.mk (Some Examples.cafe_lower) None None None None
                          (Some true) None)
       (Examples.item "p-3" "Mocha" Examples.cafe_upper None 2).
Proof.
  split; [reflexivity|].
  apply (proj1 (proj2 (getAllProducts_conjunction
                         (Examples.fold_acute false)
                         (Examples.holding
                            [Examples.item "p-1" "Tea" "Drinks" None 1;
                             Examples.item "p-2" "Latte" Examples.cafe_upper
                                           None 0;
                             Examples.item "p-3" "Mocha" Examples.cafe_upper
                                           None 2] [])
                         (ProductFilters.mk (Some Examples.cafe_lower) None None
                                            None None (Some true) None)))
        (Examples.item "p-3" "Mocha" Examples.cafe_upper None 2)).
  vm_compute. tauto.
Defined.

(** ** Searching *)

Lemma includes_empty (s : string) : JS.includes s EmptyString = true.
Proof. rewrite includes_unfold. now destruct s. Qed.

Lemma includes_refl (s : string) : JS.includes s s = true.
Proof. apply includes_spec. exists EmptyString, EmptyString. simpl.
       induction s as [|c s IH]; simpl; [reflexivity | now rewrite <- IH]. Qed.

Lemma filter_all {A : Type} (f : A -> bool) (l : list A) :
  (forall x, f x = true) -> filter f l = l.
Proof.
  intros Hf. induction l as [|x l IH]; simpl; [reflexivity|].
  now rewrite Hf, IH.
Qed.

Lemma lower_ascii_idempotent (c : ascii) :
  JS.lower_ascii (JS.lower_ascii c) = JS.lower_ascii c.
Proof.
  destruct c as [[|] [|] [|] [|] [|] [|] [|] [|]]; reflexivity.
Qed.

Lemma toLowerCase_idempotent (s : string) :
  JS.toLowerCase (JS.toLowerCase s) = JS.toLowerCase s.
Proof.
  induction s as [|c s IH]; simpl; [reflexivity|].
  now rewrite lower_ascii_idempotent, IH.
Qed.

(** X12. The empty query matches everything: [searchProducts("")] and
    [getProductsByCategory("")] return every product and
    [getProductByName("")] returns the first product of the map.  Searching
    does not depend on the case of the query, and it finds at least what the
    narrower lookups find: every product of [getProductsByCategory(q)],
    every product of [getProductsByTag(q)] and the product of
    [getProductByName(q)] are among [searchProducts(q)]. *)
Theorem searchProducts_edges (st : Store.t) (query : string) :
  Store.searchProducts st EmptyString = Store.getAllProducts st None /\
  Store.getProductsByCategory st EmptyString = Store.getAllProducts st None /\
  Store.getProductByName st EmptyString
  = hd_error (Store.getAllProducts st None) /\
  Store.searchProducts st (JS.toLowerCase query) = Store.searchProducts st query /\
  incl (Store.getProductsByCategory st query) (Store.searchProducts st query) /\
  incl (Store.getProductsByTag st query) (Store.searchProducts st query) /\
  match Store.getProductByName st query with
  | Some p => In p (Store.searchProducts st query)
  | None => True
  end.
Proof.
  split; [|split; [|split; [|split; [|split; [|split]]]]].
  - unfold Store.searchProducts. simpl. apply filter_all.
    intros p. now rewrite includes_empty.
  - unfold Store.getProductsByCategory. simpl. apply filter_all.
    intros p. apply includes_empty.
  - unfold Store.getProductByName, Store.getProductByName_with. simpl.
    destruct (JS.map_values (Store.products st)) as [|p l]; simpl; [reflexivity|].
    now rewrite includes_empty.
  - unfold Store.searchProducts. cbv zeta. now rewrite toLowerCase_idempotent.
  - intros p Hin. apply filter_In in Hin as [Hin Hc].
    apply filter_In. split; [assumption|].
    unfold Store.lower_includes, Store.lower_includes_with in Hc. rewrite Hc.
    now rewrite !orb_true_r.
  - intros p Hin. apply filter_In in Hin as [Hin Hc].
    apply filter_In. split; [assumption|].
    unfold Store.tag_includes, Store.tag_includes_with,
      Store.lower_includes_with in Hc. rewrite Hc.
    now rewrite !orb_true_r.
  - unfold Store.getProductByName, Store.getProductByName_with.
    match goal with |- context [find ?f ?l] => pose proof (find_first f l) as H end.
    destruct (find _ _) as [p|]; [|trivial].
    destruct H as (l1 & l2 & Hl & Hp & _).
    apply filter_In. split.
    + rewrite Hl. apply in_or_app. right. now left.
    + now rewrite Hp.
Qed.

(** ** Rankings in the metrics *)

Lemma Qcltb_spec (a b : Qc) : JS.Qcltb a b = true <-> (a < b)%Qc.
Proof.
  unfold JS.Qcltb. rewrite Qclt_alt.
  destruct (a ?= b)%Qc; split; congruence.
Qed.

Lemma Qcltb_false (a b : Qc) : JS.Qcltb a b = false <-> (b <= a)%Qc.
Proof.
  split.
  - intros H. apply Qcnot_lt_le. intros Hlt.
    apply Qcltb_spec in Hlt. congruence.
  - intros Hle. destruct (JS.Qcltb a b) eqn:E; [|reflexivity].
    apply Qcltb_spec in E. now apply Qcle_not_lt in Hle.
Qed.

Lemma sort_by_revenue {A : Type} (key : A -> Qc) (l : list A) :
  StronglySorted (fun a b => (key b <= key a)%Qc)
                 (JS.sort (fun a b => JS.Qcltb (key a) (key b)) l).
Proof.
  eapply StronglySorted_weaken;
    [|apply (sort_sorted (fun a b => JS.Qcltb (key a) (key b)))].
  - intros a b. cbv beta. apply Qcltb_false.
  - intros a b H. apply Qcltb_spec in H. apply Qcltb_false.
    now apply Qclt_le_weak.
  - intros a b c H1 H2. apply Qcltb_false in H1, H2. apply Qcltb_false.
    eapply Qcle_trans; eassumption.
Qed.

Lemma in_firstn {A : Type} (n : nat) (l : list A) (x : A) :
  In x (firstn n l) -> In x l.
Proof.
  revert n. induction l as [|y l IH]; intros [|n]; simpl; try tauto.
  intros [H|H]; [now left | right; eauto].
Qed.

Lemma map_firstn {A B : Type} (f : A -> B) (n : nat) (l : list A) :
  List.map f (firstn n l) = firstn n (List.map f l).
Proof.
  revert n. induction l as [|y l IH]; intros [|n]; simpl; try reflexivity.
  now rewrite IH.
Qed.

Lemma StronglySorted_firstn {A : Type} (R : A -> A -> Prop) (n : nat) (l : list A) :
  StronglySorted R l -> StronglySorted R (firstn n l).
Proof.
  intros H. revert n. induction H as [|x l _ IH Hx]; intros [|n]; simpl;
    try constructor; [apply IH|].
  apply Forall_forall. intros y Hy.
  apply (proj1 (Forall_forall _ _) Hx). eapply in_firstn; eassumption.
Qed.

Lemma NoDup_firstn {A : Type} (n : nat) (l : list A) :
  NoDup l -> NoDup (firstn n l).
Proof.
  intros H. revert n. induction H as [|x l Hx _ IH]; intros [|n]; simpl;
    try constructor; [|apply IH].
  intros Hin. apply Hx. eapply in_firstn; eassumption.
Qed.

Lemma productSales_fold_name (l : list Sale.t) m (id : string) :
  option_map fst (JS.map_get id (fold_left Store.productSales_step l m))
  = match option_map fst (JS.map_get id m) with
    | Some n => Some n
    | None => Spec.first_name id l
    end.
Proof.
  revert m. induction l as [|s l IH]; intros m; simpl.
  - now destruct (option_map fst (JS.map_get id m)).
  - rewrite IH. unfold Spec.first_name. simpl.
    unfold Store.productSales_step.
    destruct (String.eqb_spec (Sale.productId s) id) as [<-|Hne].
    + destruct (JS.map_get (Sale.productId s) m) as [[n r]|];
        rewrite map_get_set_same; reflexivity.
    + destruct (JS.map_get (Sale.productId s) m) as [[n r]|];
        rewrite map_get_set_other by congruence; reflexivity.
Qed.

(** X14. [topProducts] has at most five entries, in descending order of
    [sales], with distinct product ids; each entry belongs to a product
    that has a selected sale, its [sales] is the summed [totalAmount] of that
    product's selected sales, and its [name] is the product name recorded by
    the earliest of them. *)
Theorem topProducts_ranking
        (st : Store.t) (clock : Store.calendar) (dateRange : option DateRange.t) :
  let salesData := Store.selected st dateRange in
  let tops :=
    StoreMetrics.topProducts (Store.getSalesAnalytics st clock dateRange) in
  (List.length tops <= 5)%nat /\
  StronglySorted (fun a b => (StoreMetrics.sales b <= StoreMetrics.sales a)%Qc)
                 tops /\
  NoDup (List.map StoreMetrics.id tops) /\
  Forall (fun t =>
            In (StoreMetrics.id t) (List.map Sale.productId salesData) /\
            StoreMetrics.sales t
            = Spec.product_revenue (StoreMetrics.id t) salesData /\
            Some (StoreMetrics.name t)
            = Spec.first_name (StoreMetrics.id t) salesData)
         tops.
Proof.
  cbv zeta. unfold Store.getSalesAnalytics. simpl.
  set (salesData := Store.selected st dateRange).
  unfold Store.topProducts. rewrite (slice0_firstn 5).
  set (groups := Store.productSales salesData).
  assert (Hnd : NoDup (JS.map_keys groups))
    by (apply productSales_fold_NoDup; constructor).
  assert (Hids : List.map StoreMetrics.id (Store.as_tops groups)
                 = JS.map_keys groups).
  { unfold Store.as_tops, JS.map_keys. rewrite map_map.
    apply map_ext. now intros [id [n r]]. }
  pose proof (sort_perm Store.top_after (Store.as_tops groups)) as Hperm.
  split; [apply firstn_le_length|].
  split; [apply StronglySorted_firstn, (sort_by_revenue StoreMetrics.sales)|].
  split.
  - rewrite map_firstn. apply NoDup_firstn.
    eapply Permutation_NoDup; [apply Permutation_map, Hperm|].
    now rewrite Hids.
  - apply Forall_forall. intros t Hin. apply in_firstn in Hin.
    apply (Permutation_in _ (Permutation_sym Hperm)) in Hin.
    apply in_map_iff in Hin as [[id [n r]] [<- Hin]]. simpl.
    destruct (productSales_groups salesData) as [Hkeys Hsum].
    split; [apply Hkeys, in_map_iff; now exists (id, (n, r))|].
    split; [exact (Hsum _ _ _ Hin)|].
    pose proof (productSales_fold_name salesData [] id) as Hname.
    fold (Store.productSales salesData) in Hname. fold groups in Hname.
    rewrite (map_in_get _ _ _ Hnd Hin) in Hname. simpl in Hname.
    exact Hname.
Qed.

Lemma category_orders_perm (l l' : list StoreMetrics.cat) :
  Permutation l l' -> Spec.category_orders l = Spec.category_orders l'.
Proof.
  induction 1 as [|x l l' _ IH|x y l|l l' l'' _ IH1 _ IH2]; simpl; lia.
Qed.

Lemma category_orders_set k v v' (m : list (string * (Qc * Z))) :
  JS.map_get k m = Some v ->
  Spec.category_orders (Store.as_cats (JS.map_set k v' m))
  = Spec.category_orders (Store.as_cats m) + (snd v' - snd v).
Proof.
  destruct v as [r o], v' as [r' o'].
  induction m as [|[k' [r0 o0]] m IH]; simpl; [discriminate|].
  destruct (String.eqb k k'); simpl.
  - intros H. injection H as -> ->. lia.
  - intros H. rewrite (IH H). simpl. lia.
Qed.

Lemma category_orders_new k v (m : list (string * (Qc * Z))) :
  JS.map_get k m = None ->
  Spec.category_orders (Store.as_cats (JS.map_set k v m))
  = Spec.category_orders (Store.as_cats m) + snd v.
Proof.
  intros H. rewrite (map_set_absent _ _ _ H). unfold Store.as_cats.
  rewrite map_app. destruct v as [r o]. simpl. clear H.
  induction m as [|[k' [r' o']] m IH]; simpl; lia.
Qed.

Lemma categoryStats_step_facts st m s :
  NoDup (JS.map_keys m) ->
  Forall (fun kv => 1 <= snd (snd kv)) m ->
  let m' := Store.categoryStats_step st m s in
  NoDup (JS.map_keys m') /\
  Forall (fun kv => 1 <= snd (snd kv)) m' /\
  Spec.category_orders (Store.as_cats m')
  = Spec.category_orders (Store.as_cats m)
    + (if Spec.resolved st s then 1 else 0) /\
  (forall c, In c (JS.map_keys m')
             <-> In c (JS.map_keys m)
                 \/ exists p, Store.getProduct st (Sale.productId s) = Some p
                              /\ Product.category p = c).
Proof.
  intros Hnd Hpos. cbv zeta.
  unfold Store.categoryStats_step, Spec.resolved, Spec.orphaned.
  destruct (Store.getProduct st (Sale.productId s)) as [p|] eqn:Hp; simpl.
  - assert (Hkeys : forall v c,
               In c (JS.map_keys (JS.map_set (Product.category p) v m))
               <-> In c (JS.map_keys m)
                   \/ exists p0, Some p = Some p0 /\ Product.category p0 = c).
    { intros v c. rewrite map_set_keys_in. split.
      - intros [->|H]; [right; now exists p | now left].
      - intros [H|(p0 & E & Hc)]; [now right|].
        injection E as <-. now left. }
    destruct (JS.map_get (Product.category p) m) as [[r o]|] eqn:E.
    + pose proof (map_get_in _ _ _ E) as Hin.
      pose proof (proj1 (Forall_forall _ _) Hpos _ Hin) as Ho. simpl in Ho.
      split; [now apply map_set_NoDup|].
      split; [apply map_set_Forall; [simpl; lia | assumption]|].
      split; [rewrite (category_orders_set _ _ _ _ E); simpl; lia|].
      apply Hkeys.
    + split; [now apply map_set_NoDup|].
      split; [apply map_set_Forall; [simpl; lia | assumption]|].
      split; [now rewrite (category_orders_new _ _ _ E)|].
      apply Hkeys.
  - split; [assumption|]. split; [assumption|]. split; [lia|].
    intros c. split; [now left|]. intros [H|(p0 & E & _)]; [assumption|].
    discriminate.
Qed.

Lemma categoryStats_fold_facts st l m :
  NoDup (JS.map_keys m) ->
  Forall (fun kv => 1 <= snd (snd kv)) m ->
  let m' := fold_left (Store.categoryStats_step st) l m in
  NoDup (JS.map_keys m') /\
  Forall (fun kv => 1 <= snd (snd kv)) m' /\
  Spec.category_orders (Store.as_cats m')
  = Spec.category_orders (Store.as_cats m)
    + Z.of_nat (List.length (filter (Spec.resolved st) l)) /\
  (forall c, In c (JS.map_keys m')
             <-> In c (JS.map_keys m)
                 \/ exists sale p, In sale l
                                   /\ Store.getProduct st (Sale.productId sale) = Some p
                                   /\ Product.category p = c).
Proof.
  revert m. induction l as [|s l IH]; intros m Hnd Hpos; cbv zeta.
  - simpl. repeat split; try assumption; try lia; [tauto|].
    intros [H|(sale & p & [] & _)]. exact H.
  - cbn [fold_left].
    assert (Hlen : Z.of_nat (List.length (filter (Spec.resolved st) (s :: l)))
                   = (if Spec.resolved st s then 1 else 0)
                     + Z.of_nat (List.length (filter (Spec.resolved st) l))).
    { cbn [filter]. destruct (Spec.resolved st s); cbn [List.length]; lia. }
    destruct (categoryStats_step_facts st m s Hnd Hpos) as (S1 & S2 & S3 & S4).
    cbv zeta in S1, S2, S3, S4.
    destruct (IH (Store.categoryStats_step st m s) S1 S2) as (H1 & H2 & H3 & H4).
    cbv zeta in H1, H2, H3, H4.
    split; [exact H1|]. split; [exact H2|]. split.
    + rewrite H3, S3, Hlen. lia.
    + intros c. rewrite H4, S4. split.
      * intros [[H|(p & Hp & Hc)]|(sale & q & Hin & Hq & Hc)].
        -- now left.
        -- right. exists s, p. repeat split; [now left | assumption..].
        -- right. exists sale, q. repeat split; [now right | assumption..].
      * intros [H|(sale & q & [<-|Hin] & Hq & Hc)].
        -- left. now left.
        -- left. right. now exists q.
        -- right. exists sale, q. repeat split; assumption.
Qed.

(** X15. [categoryPerformance] lists distinct categories in descending order
    of revenue; a category is listed exactly when some selected sale resolves
    to a product that is in that category now; every entry counts at least
    one order, and the orders add up to the number of selected sales whose
    product still resolves. *)
Theorem categoryPerformance_ranking
        (st : Store.t) (clock : Store.calendar) (dateRange : option DateRange.t) :
  let salesData := Store.selected st dateRange in
  let cats :=
    StoreMetrics.categoryPerformance (Store.getSalesAnalytics st clock dateRange) in
  NoDup (List.map StoreMetrics.category cats) /\
  StronglySorted
    (fun a b => (StoreMetrics.revenue b <= StoreMetrics.revenue a)%Qc) cats /\
  (forall c, In c (List.map StoreMetrics.category cats)
             <-> exists sale p,
                   In sale salesData
                   /\ Store.getProduct st (Sale.productId sale) = Some p
                   /\ Product.category p = c) /\
  Forall (fun e => 1 <= StoreMetrics.orders e) cats /\
  Spec.category_orders cats
  = Z.of_nat (List.length (filter (Spec.resolved st) salesData)).
Proof.
  cbv zeta. unfold Store.getSalesAnalytics. simpl.
  set (salesData := Store.selected st dateRange).
  unfold Store.categoryPerformance.
  set (stats := Store.categoryStats st salesData).
  destruct (categoryStats_fold_facts st salesData [])
    as (Hnd & Hpos & Hord & Hkeys); [constructor | constructor |].
  cbv zeta in Hnd, Hpos, Hord, Hkeys.
  fold (Store.categoryStats st salesData) in Hnd, Hpos, Hord, Hkeys.
  fold stats in Hnd, Hpos, Hord, Hkeys.
  pose proof (sort_perm Store.cat_after (Store.as_cats stats)) as Hperm.
  assert (Hcats : List.map StoreMetrics.category (Store.as_cats stats)
                  = JS.map_keys stats).
  { unfold Store.as_cats, JS.map_keys. rewrite map_map.
    apply map_ext. now intros [c [r o]]. }
  assert (Hcats_sorted :
            forall c,
              In c (List.map StoreMetrics.category
                             (JS.sort Store.cat_after (Store.as_cats stats)))
              <-> In c (JS.map_keys stats)).
  { intros c. rewrite <- Hcats. split; apply Permutation_in;
      [apply Permutation_sym|]; apply Permutation_map, Hperm. }
  split; [|split; [|split; [|split]]].
  - eapply Permutation_NoDup; [apply Permutation_map, Hperm|].
    now rewrite Hcats.
  - apply (sort_by_revenue StoreMetrics.revenue).
  - intros c. rewrite Hcats_sorted, Hkeys. simpl. split.
    + intros [[]|H]. exact H.
    + intros H. now right.
  - apply Forall_forall. intros e Hin.
    apply (Permutation_in _ (Permutation_sym Hperm)) in Hin.
    apply in_map_iff in Hin as [[c [r o]] [<- Hin]]. simpl.
    exact (proj1 (Forall_forall _ _) Hpos _ Hin).
  - rewrite <- (category_orders_perm _ _ Hperm), Hord. simpl. lia.
Qed.

(** ** Totals in the metrics *)

Lemma revenue_snoc (l : list Sale.t) (s : Sale.t) :
  Store.revenue (l ++ [s]) = (Store.revenue l + Sale.totalAmount s)%Qc.
Proof.
  unfold Store.revenue. now rewrite fold_left_app.
Qed.

Lemma addSale_sales st saleData now rnd :
  Store.sales (snd (Store.addSale saleData now rnd st))
  = Store.sales st ++ [fst (Store.addSale saleData now rnd st)].
Proof.
  unfold Store.addSale.
  match goal with
  | |- context [Store.updateStock ?i ?o ?n ?s] =>
      pose proof (updateStock_sales s i o n) as H;
      destruct (Store.updateStock i o n s) as [r st2]
  end.
  simpl in *. exact H.
Qed.

Lemma addSale_result st saleData now rnd :
  fst (Store.addSale saleData now rnd st)
  = Sale.with_id (Store.genId "sale" now rnd) saleData.
Proof.
  unfold Store.addSale.
  now destruct (Store.updateStock _ _ _ _).
Qed.

(** X17. After [addSale] the metrics count the new sale when it is selected:
    without a date range, or with a range that contains its timestamp,
    [totalOrders] goes up by one and [totalSales] by the sale's
    [totalAmount]; with a range that does not contain it, both stay. *)
Theorem addSale_moves_totals
        (st : Store.t) (saleData : Sale.t) (now : Z) (rnd : string)
        (clock : Store.calendar) (dateRange : option DateRange.t) :
  let st' := snd (Store.addSale saleData now rnd st) in
  let before := Store.getSalesAnalytics st clock dateRange in
  let after := Store.getSalesAnalytics st' clock dateRange in
  let counted :=
    match dateRange with
    | None => true
    | Some r => Store.in_range (DateRange.start r) (DateRange.end_ r) saleData
    end in
  StoreMetrics.totalOrders after
  = (StoreMetrics.totalOrders before + if counted then 1 else 0)%nat /\
  StoreMetrics.totalSales after
  = (StoreMetrics.totalSales before
     + if counted then Sale.totalAmount saleData else 0)%Qc.
Proof.
  cbv zeta. unfold Store.getSalesAnalytics. simpl.
  assert (Hsel : Store.selected (snd (Store.addSale saleData now rnd st)) dateRange
                 = Store.selected st dateRange
                   ++ (if match dateRange with
                          | None => true
                          | Some r => Store.in_range (DateRange.start r)
                                                     (DateRange.end_ r) saleData
                          end
                       then [fst (Store.addSale saleData now rnd st)] else [])).
  { unfold Store.selected, Store.getSalesByDateRange.
    rewrite addSale_sales. destruct dateRange as [r|]; [|reflexivity].
    rewrite filter_app, addSale_result. simpl.
    change (Store.in_range (DateRange.start r) (DateRange.end_ r)
              (Sale.with_id (Store.genId "sale" now rnd) saleData))
      with (Store.in_range (DateRange.start r) (DateRange.end_ r) saleData).
    now destruct (Store.in_range _ _ saleData). }
  rewrite Hsel.
  destruct (match dateRange with
            | None => true
            | Some r => Store.in_range (DateRange.start r) (DateRange.end_ r)
                                       saleData
            end).
  - rewrite length_app, revenue_snoc, addSale_result. simpl.
    split; [lia | reflexivity].
  - rewrite app_nil_r. split; [lia | ring].
Qed.

(** ** Importing *)

Lemma find_snoc {A : Type} (f : A -> bool) (l : list A) (x : A) :
  find f (l ++ [x])
  = match find f l with
    | Some y => Some y
    | None => if f x then Some x else None
    end.
Proof.
  induction l as [|y l IH]; simpl; [reflexivity|].
  now destruct (f y).
Qed.

Lemma fold_load_get (ps : list Product.t) (st : Store.t) (id : string) :
  Store.getProduct (fold_left Store.load ps st) id
  = match find (fun p => String.eqb (Product.id p) id) (rev ps) with
    | Some p => Some p
    | None => Store.getProduct st id
    end.
Proof.
  revert st. induction ps as [|p ps IH]; intros st; simpl; [reflexivity|].
  rewrite IH, find_snoc.
  destruct (find _ (rev ps)); [reflexivity|].
  unfold Store.getProduct. simpl.
  destruct (String.eqb_spec (Product.id p) id) as [<-|Hne].
  - apply map_get_set_same.
  - apply map_get_set_other. congruence.
Qed.

Lemma fold_load_categories (ps : list Product.t) (st : Store.t) (c : string) :
  In c (Store.categories (fold_left Store.load ps st))
  <-> In c (Store.categories st) \/ In c (List.map Product.category ps).
Proof.
  revert st. induction ps as [|p ps IH]; intros st; simpl; [tauto|].
  rewrite IH. simpl. rewrite set_add_in. intuition congruence.
Qed.

(** X18. [importData] replaces the store: afterwards an id resolves to the
    last product of the imported array that carries it (nothing of the
    previous products survives), the sale log is the imported one, and the
    categories are exactly those of the imported products. *)
Theorem importData_replaces
        (data : list Product.t * list Sale.t) (st : Store.t) (id : string) :
  let st' := Store.importData data st in
  Store.getProduct st' id
  = find (fun p => String.eqb (Product.id p) id) (rev (fst data)) /\
  Store.sales st' = snd data /\
  (forall c, In c (Store.getCategories st')
             <-> In c (List.map Product.category (fst data))) /\
  (Store.getProductCount st' <= List.length (fst data))%nat.
Proof.
  cbv zeta. unfold Store.importData.
  split; [|split; [reflexivity|split]].
  - change (Store.getProduct (Store.with_sales (snd data)
                                (fold_left Store.load (fst data) Store.empty)) id)
      with (Store.getProduct (fold_left Store.load (fst data) Store.empty) id).
    rewrite fold_load_get. now destruct (find _ _).
  - intros c. unfold Store.getCategories. simpl.
    rewrite fold_load_categories. simpl. tauto.
  - unfold Store.getProductCount. simpl.
    assert (H : forall ps st0,
               (List.length (Store.products (fold_left Store.load ps st0))
                <= List.length (Store.products st0) + List.length ps)%nat).
    { induction ps as [|p ps IH]; intros st0; simpl; [lia|].
      specialize (IH (Store.load st0 p)). simpl in IH.
      assert (Hset : forall k (v : Product.t) m,
                 (List.length (JS.map_set k v m) <= S (List.length m))%nat).
      { intros k v m. induction m as [|[k' v'] m IHm]; simpl; [lia|].
        destruct (String.eqb k k'); simpl; lia. }
      specialize (Hset (Product.id p) p (Store.products st0)). lia. }
    apply (H (fst data) Store.empty).
Qed.

(** X19. Importing products with pairwise distinct ids and exporting again
    gives back the same product array, in the same order, and the same sale
    array. *)
Theorem export_after_import
        (ps : list Product.t) (ss : list Sale.t) (st : Store.t) :
  NoDup (List.map Product.id ps) ->
  Store.exportData (Store.importData (ps, ss) st) = (ps, ss).
Proof.
  intros Hnd. unfold Store.exportData, Store.importData. simpl.
  f_equal. rewrite fold_load_fresh by exact Hnd. simpl.
  unfold JS.map_values. rewrite map_map. simpl. apply map_id.
Qed.

Lemma export_after_import_witness :
  Store.exportData
    (Store.importData (Sample.sampleProducts, Sample.sampleSales 1750000000000)
                      (Examples.holding [Examples.widget 5] []))
  = (Sample.sampleProducts, Sample.sampleSales 1750000000000).
Proof.
  apply export_after_import.
  repeat constructor; simpl; intuition discriminate.
Defined.

(** * Properties of the tool layer *)

(** ** Creating products *)





(** ** Adjusting stock through the tool *)

Lemma lookup_listed (st : Store.t) (identifier identifierType : string)
      (p : Product.t) :
  Tools.lookup st identifier identifierType = Some p ->
  In p (JS.map_values (Store.products st)).
Proof.
  unfold Tools.lookup.
  destruct (String.eqb identifierType "id");
    [|destruct (String.eqb identifierType "sku")].
  - intros H. apply map_get_in in H. apply in_map_iff. now exists (identifier, p).
  - intros H. now apply find_some in H.
  - intros H. now apply find_some in H.
Qed.

Lemma updateInventory_found
      (productIdentifier identifierType operation : string) (quantity : Z)
      (reason : option string) (now : Z) (st st' : Store.t) (p : Product.t) :
  Tools.lookup st productIdentifier identifierType = Some p ->
  Store.updateStock (Product.id p)
                    (StockOperation.mk operation quantity reason) now st
  = (true, st') ->
  Tools.updateInventory productIdentifier identifierType operation quantity
                        reason now st
  = inr (Tools.mkInventoryResult true (Product.id p) (Product.name p)
           (Product.stock p)
           (match Store.getProduct st' (Product.id p) with
            | Some updatedProduct => Product.stock updatedProduct
            | None => 0
            end)
           operation quantity reason
           (Tools.inventoryMessage operation (Product.name p) quantity
              (Product.stock p)
              (match Store.getProduct st' (Product.id p) with
               | Some updatedProduct => Product.stock updatedProduct
               | None => 0
               end)),
         st').
Proof.
  intros Hl Hu. unfold Tools.updateInventory. rewrite Hl. cbv zeta.
  rewrite Hu. reflexivity.
Qed.

Lemma updateStock_commits st id p operation quantity reason now :
  Store.getProduct st id = Some p ->
  operation = "add" \/ operation = "subtract" \/ operation = "set" ->
  let n := if String.eqb operation "add" then Product.stock p + quantity
           else if String.eqb operation "subtract"
                then Z.max 0 (Product.stock p - quantity)
                else Z.max 0 quantity in
  Store.updateStock id (StockOperation.mk operation quantity reason) now st
  = (true,
     Store.with_products
       (JS.map_set id (Product.with_stock n now p) (Store.products st)) st).
Proof.
  intros Hp Hop. cbv zeta. rewrite (updateStock_known _ _ _ _ _ Hp).
  destruct Hop as [-> | [-> | ->]]; reflexivity.
Qed.

(** X22. In a reachable store, with an operation among add, subtract and
    set, [updateInventory] fails only with NotFound, exactly when the
    identifier resolves to nothing, and then changes nothing; otherwise it
    applies [updateStock] to the resolved product, reports success, the
    stock before and the stock after, and the stock after is what
    [getStockLevel] answers in the new store.  The "failed to update" error
    cannot occur. *)
Theorem updateInventory_outcome
        (productIdentifier identifierType operation : string) (quantity : Z)
        (reason : option string) (now : Z) (st : Store.t) :
  reachable st ->
  operation = "add" \/ operation = "subtract" \/ operation = "set" ->
  match Tools.lookup st productIdentifier identifierType with
  | None =>
      Tools.updateInventory productIdentifier identifierType operation
                            quantity reason now st
      = inl (Tools.NotFound identifierType productIdentifier)
  | Some p =>
      let st' :=
        snd (Store.updateStock (Product.id p)
               (StockOperation.mk operation quantity reason) now st) in
      exists r,
        Tools.updateInventory productIdentifier identifierType operation
                              quantity reason now st = inr (r, st') /\
        Tools.success r = true /\
        Tools.productId r = Product.id p /\
        Tools.productName r = Product.name p /\
        Tools.previousStock r = Product.stock p /\
        Tools.newStock r
        = (if String.eqb operation "add" then Product.stock p + quantity
           else if String.eqb operation "subtract"
                then Z.max 0 (Product.stock p - quantity)
                else Z.max 0 quantity) /\
        Store.getStockLevel st' (Product.id p) = Tools.newStock r
  end.
Proof.
  intros Hr Hop.
  destruct (Tools.lookup st productIdentifier identifierType) as [p|] eqn:Hl.
  - pose proof (keyed_in_get _ _ (reachable_keyed st Hr)
                  (lookup_listed _ _ _ _ Hl)) as Hget.
    pose proof (updateStock_commits st (Product.id p) p operation quantity
                  reason now Hget Hop) as Hu.
    cbv zeta in Hu. cbv zeta. rewrite Hu.
    rewrite (updateInventory_found _ _ _ _ _ _ _ _ _ Hl Hu).
    eexists. split; [reflexivity|].
    cbn [Tools.success Tools.productId Tools.productName Tools.previousStock
         Tools.newStock snd].
    unfold Store.getStockLevel, Store.getProduct.
    cbn [Store.products Store.with_products].
    rewrite map_get_set_same.
    cbn [Product.stock Product.with_stock].
    repeat split.
  - unfold Tools.updateInventory. now rewrite Hl.
Qed.

Lemma updateInventory_outcome_witness :
  exists r st',
    Tools.updateInventory "jacket" "name" "subtract" 20 None 7
                          (Store.create Sample.sampleProducts 1750000000000)
    = inr (r, st') /\ Tools.newStock r = 0 /\ Tools.previousStock r = 8.
Proof.
  pose proof (updateInventory_outcome "jacket" "name" "subtract" 20 None 7
                (Store.create Sample.sampleProducts 1750000000000)
                (reach_create _ _) (or_intror (or_introl eq_refl))) as H.
  assert (Hl : exists p,
             Tools.lookup (Store.create Sample.sampleProducts 1750000000000)
                          "jacket" "name" = Some p
             /\ Product.stock p = 8)
    by (eexists; split; reflexivity).
  destruct Hl as (p & Hl & Hstock). rewrite Hl in H. cbv zeta in H.
  destruct H as (r & Hr & _ & _ & _ & Hprev & Hnew & _).
  exists r. eexists. split; [exact Hr|].
  rewrite Hnew, Hprev, Hstock. split; reflexivity.
Defined.

(** ** Low stock alerts *)

Lemma alert_value_from (l : list Tools.stockAlert) (a : Qc) :
  fold_left (fun sum product =>
               (sum + Tools.a_price product
                      * Q2Qc (inject_Z (Tools.currentStock product)))%Qc) l a
  = (a + fold_left (fun sum product =>
                      (sum + Tools.a_price product
                             * Q2Qc (inject_Z (Tools.currentStock product)))%Qc)
                   l 0)%Qc.
Proof.
  revert a. induction l as [|x l IH]; intros a; simpl; [ring|].
  rewrite IH, (IH (0 + _)%Qc). ring.
Qed.

Lemma alert_value_out_of_stock (ps : list Product.t) :
  Forall (fun p => Product.stock p = 0) ps ->
  fold_left (fun sum product =>
               (sum + Tools.a_price product
                      * Q2Qc (inject_Z (Tools.currentStock product)))%Qc)
            (List.map (Tools.alert Tools.out_of_stock) ps) 0%Qc = 0%Qc.
Proof.
  induction 1 as [|p ps Hp _ IH]; simpl; [reflexivity|].
  rewrite alert_value_from, IH, Hp.
  change (Q2Qc (inject_Z 0)) with 0%Qc. ring.
Qed.

(** X23. The alert list of [getLowStockAlerts] has [totalLowStock] plus
    [totalOutOfStock] entries, low-stock entries first; an entry marked
    low-stock has [0 < stock <= threshold] and one marked out-of-stock has
    stock 0, so a product with negative stock is never reported.  Without
    [includeOutOfStock] the out-of-stock count is reported as 0 whatever the
    store holds, and [totalValue] is the same with and without it. *)
Theorem getLowStockAlerts_summary
        (threshold : Z) (includeOutOfStock : bool) (st : Store.t) :
  let alerts := fst (Tools.getLowStockAlerts threshold includeOutOfStock st) in
  let summary := snd (Tools.getLowStockAlerts threshold includeOutOfStock st) in
  List.length alerts
  = (Tools.totalLowStock summary + Tools.totalOutOfStock summary)%nat /\
  Tools.totalLowStock summary
  = List.length (Store.getLowStockProducts threshold st) /\
  Tools.totalOutOfStock summary
  = (if includeOutOfStock
     then List.length (Store.getOutOfStockProducts st) else 0%nat) /\
  Forall (fun a => match Tools.level a with
                   | Tools.low_stock => 0 < Tools.currentStock a <= threshold
                   | Tools.out_of_stock => Tools.currentStock a = 0
                   end) alerts /\
  Tools.totalValue summary
  = Tools.totalValue
      (snd (Tools.getLowStockAlerts threshold (negb includeOutOfStock) st)).
Proof.
  cbv zeta. unfold Tools.getLowStockAlerts. simpl.
  assert (Hout : Forall (fun p => Product.stock p = 0)
                        (Store.getOutOfStockProducts st)).
  { apply Forall_forall. intros p Hin. apply filter_In in Hin as [_ H]. lia. }
  split; [|split; [reflexivity|split; [|split]]].
  - rewrite length_app, length_map.
    destruct includeOutOfStock; simpl; [now rewrite length_map | reflexivity].
  - now destruct includeOutOfStock.
  - apply Forall_app. split.
    + apply Forall_forall. intros a Hin.
      apply in_map_iff in Hin as [p [<- Hin]]. simpl.
      apply filter_In in Hin as [_ H]. lia.
    + destruct includeOutOfStock; [|constructor].
      apply Forall_forall. intros a Hin.
      apply in_map_iff in Hin as [p [<- Hin]]. simpl.
      exact (proj1 (Forall_forall _ _) Hout _ Hin).
  - rewrite !fold_left_app.
    rewrite (alert_value_from (if includeOutOfStock then _ else _)).
    rewrite (alert_value_from (if negb includeOutOfStock then _ else _)).
    destruct includeOutOfStock; simpl;
      rewrite (alert_value_out_of_stock _ Hout); ring.
Qed.

(** ** Toggling visibility *)

Lemma updateProduct_known st id p u now :
  Store.getProduct st id = Some p ->
  Store.updateProduct id u now st
  = (Some (Store.spread p u now),
     Store.track (Store.spread p u now)
       (Store.with_products
          (JS.map_set id (Store.spread p u now) (Store.products st)) st)).
Proof.
  unfold Store.getProduct, Store.updateProduct. now intros ->.
Qed.

Lemma toggleVisibility_known st id p visible now :
  Store.getProduct st id = Some p ->
  let v := match visible with
           | Some v => v
           | None => negb (Product.isVisible p)
           end in
  let u := ProductUpdates.mk None None None None None None None (Some v)
                             None None None None None (Some now) in
  snd (Tools.toggleVisibility id visible now st)
  = snd (Store.updateProduct id u now st) /\
  Tools.v_success (fst (Tools.toggleVisibility id visible now st)) = true /\
  Tools.v_product (fst (Tools.toggleVisibility id visible now st))
  = Some (Product.id p, Product.name p, v) /\
  Store.getProduct (snd (Tools.toggleVisibility id visible now st)) id
  = Some (Store.spread p u now).
Proof.
  intros Hp. cbv zeta. unfold Tools.toggleVisibility. rewrite Hp.
  cbv zeta. rewrite (updateProduct_known _ _ _ _ _ Hp).
  cbv beta iota.
  match goal with
  | |- context [Store.getProduct ?s id] =>
      assert (Hget : Store.getProduct s id
                     = Some (Store.spread p
                               (ProductUpdates.mk None None None None None None
                                  None
                                  (Some match visible with
                                        | Some v => v
                                        | None => negb (Product.isVisible p)
                                        end)
                                  None None None None None (Some now)) now))
        by (unfold Store.getProduct; simpl; apply map_get_set_same)
  end.
  rewrite Hget.
  split; [reflexivity|]. split; [reflexivity|]. split; [reflexivity|].
  cbn [snd]. exact Hget.
Qed.

(** X24. [toggleVisibility] on an unknown id reports failure and changes
    nothing.  On a known product it succeeds and stores the requested
    visibility, or the opposite of the current one when none is requested;
    toggling twice restores the product, up to its [updatedAt], in the same
    map position, and no other product is touched. *)
Theorem toggleVisibility_twice (st : Store.t) (id : string) (t1 t2 : Z) :
  match Store.getProduct st id with
  | None =>
      Tools.v_success (fst (Tools.toggleVisibility id None t1 st)) = false /\
      snd (Tools.toggleVisibility id None t1 st) = st
  | Some p =>
      let st1 := snd (Tools.toggleVisibility id None t1 st) in
      let st2 := snd (Tools.toggleVisibility id None t2 st1) in
      Tools.v_success (fst (Tools.toggleVisibility id None t1 st)) = true /\
      option_map Product.isVisible (Store.getProduct st1 id)
      = Some (negb (Product.isVisible p)) /\
      Store.getProduct st2 id
      = Some (Product.with_stock (Product.stock p) t2 p) /\
      JS.map_keys (Store.products st2) = JS.map_keys (Store.products st) /\
      (forall k, k <> id -> Store.getProduct st2 k = Store.getProduct st k)
  end.
Proof.
  destruct (Store.getProduct st id) as [p|] eqn:Hp.
  - cbv zeta.
    destruct (toggleVisibility_known st id p None t1 Hp) as (Hs1 & Hok1 & _ & Hg1).
    cbv zeta in Hs1, Hg1.
    destruct (toggleVisibility_known _ id _ None t2 Hg1) as (Hs2 & _ & _ & Hg2).
    cbv zeta in Hs2, Hg2.
    split; [exact Hok1|]. split; [now rewrite Hg1|].
    split; [rewrite Hg2; destruct p; simpl; now rewrite negb_involutive|].
    split.
    + rewrite Hs2, (updateProduct_known _ _ _ _ _ Hg1). simpl.
      rewrite map_set_keys_present by (unfold Store.getProduct in Hg1; congruence).
      rewrite Hs1, (updateProduct_known _ _ _ _ _ Hp). simpl.
      apply map_set_keys_present. unfold Store.getProduct in Hp. congruence.
    + intros k Hk.
      rewrite Hs2, (updateProduct_known _ _ _ _ _ Hg1).
      unfold Store.getProduct at 1. simpl.
      rewrite map_get_set_other by exact Hk.
      rewrite Hs1, (updateProduct_known _ _ _ _ _ Hp). simpl.
      now apply map_get_set_other.
  - unfold Tools.toggleVisibility. rewrite Hp. split; reflexivity.
Qed.

(** ** Paging through a collection *)

Lemma slice_nonneg {A : Type} (s e : Z) (l : list A) :
  0 <= s -> s <= e ->
  JS.slice s e l = firstn (Z.to_nat (e - s)) (skipn (Z.to_nat s) l).
Proof.
  intros Hs He. unfold JS.slice, JS.rel_index. cbv zeta.
  destruct (Z.ltb_spec s 0); [lia|]. destruct (Z.ltb_spec e 0); [lia|].
  set (L := Z.of_nat (List.length l)).
  destruct (Z.le_gt_cases s L) as [HsL|HsL].
  - rewrite (Z.min_l s L) by exact HsL.
    assert (Hlen : List.length (skipn (Z.to_nat s) l) = Z.to_nat (L - s))
      by (rewrite length_skipn; unfold L; lia).
    destruct (Z.le_gt_cases e L) as [HeL|HeL].
    + now rewrite (Z.min_l e L) by exact HeL.
    + rewrite (Z.min_r e L) by lia.
      rewrite <- Hlen, firstn_all.
      symmetry. apply firstn_all2. rewrite Hlen. lia.
  - rewrite (Z.min_r s L) by lia.
    rewrite (skipn_all2 l (n := Z.to_nat L)) by (unfold L; lia).
    rewrite (skipn_all2 l (n := Z.to_nat s)) by (unfold L in HsL; lia).
    now rewrite !firstn_nil.
Qed.

Lemma skipn_nonempty {A : Type} (n : nat) (l : list A) :
  skipn n l <> [] <-> (n < List.length l)%nat.
Proof.
  split.
  - intros H. destruct (Nat.le_gt_cases (List.length l) n) as [Hle|Hlt];
      [|exact Hlt].
    exfalso. apply H. now apply skipn_all2.
  - intros Hlt Hnil. apply (f_equal (@List.length A)) in Hnil.
    rewrite length_skipn in Hnil. simpl in Hnil. lia.
Qed.

(** X25. For a non-negative offset and limit, [getProductsByCollection] (the
    tool) returns the [limit] products that follow the first [offset]
    matches, and [total] counts all matches; [hasNext] is true exactly when
    matches remain after the page, and when it is false the page holds
    everything from [offset] on.  A match has a collection equal to the
    requested one up to case, so every match is also returned by the store's
    substring lookup.  With offset -1 and limit 1 the page is empty. *)
Theorem getProductsByCollectionTool_pages
        (collection : string) (limit offset : Z) (st : Store.t) :
  0 <= offset -> 0 <= limit ->
  let r := Tools.getProductsByCollectionTool collection limit offset st in
  let matches :=
    filter (Tools.in_collection collection) (Store.getAllProducts st None) in
  Tools.page r = firstn (Z.to_nat limit) (skipn (Z.to_nat offset) matches) /\
  Tools.total r = List.length matches /\
  (List.length (Tools.page r) <= Z.to_nat limit)%nat /\
  (Tools.hasNext r = true
   <-> skipn (Z.to_nat offset + Z.to_nat limit) matches <> []) /\
  (Tools.hasNext r = false -> Tools.page r = skipn (Z.to_nat offset) matches) /\
  incl matches (Store.getProductsByCollection st collection) /\
  Tools.page (Tools.getProductsByCollectionTool collection 1 (-1) st) = [].
Proof.
  intros Ho Hl. cbv zeta. unfold Tools.getProductsByCollectionTool. simpl.
  set (matches := filter (Tools.in_collection collection)
                         (JS.map_values (Store.products st))).
  assert (Hpage : JS.slice offset (offset + limit) matches
                  = firstn (Z.to_nat limit) (skipn (Z.to_nat offset) matches)).
  { rewrite slice_nonneg by lia. do 2 f_equal. lia. }
  rewrite Hpage.
  split; [reflexivity|]. split; [reflexivity|].
  split; [apply firstn_le_length|].
  split; [|split; [|split]].
  - rewrite skipn_nonempty, Z.ltb_lt. lia.
  - intros Hn. apply Z.ltb_ge in Hn. apply firstn_all2.
    rewrite length_skipn. lia.
  - intros p Hin. apply filter_In in Hin as [Hin Hc].
    apply filter_In. split; [exact Hin|].
    unfold Tools.in_collection in Hc.
    unfold Store.collection_includes, Store.collection_includes_with.
    destruct (Product.collection p) as [[|a pc]|];
      cbn [JS.truthy_value] in Hc; try discriminate.
    apply String.eqb_eq in Hc. unfold Store.lower_includes_with.
    rewrite Hc. apply includes_refl.
  - unfold JS.slice, JS.rel_index. simpl.
    destruct (Z.of_nat (List.length matches) + -1)%Z eqn:E; simpl;
      try reflexivity.
    + rewrite (Z.min_l 0) by lia. reflexivity.
    + rewrite (Z.min_l 0) by lia.
      replace (Z.to_nat (0 - Z.max (Z.pos p) 0)) with 0%nat by lia.
      reflexivity.
    + rewrite (Z.min_l 0) by lia. reflexivity.
Qed.

Lemma getProductsByCollectionTool_pages_witness :
  let r := Tools.getProductsByCollectionTool "winter collection" 1 1
             (Store.create Sample.sampleProducts 1750000000000) in
  List.map Product.name (Tools.page r) = ["Winter Scarf"]
  /\ Tools.hasNext r = false.
Proof.
  cbv zeta.
  pose proof (getProductsByCollectionTool_pages "winter collection" 1 1
                (Store.create Sample.sampleProducts 1750000000000)
                ltac:(lia) ltac:(lia)) as H.
  cbv zeta in H. destruct H as (Hpage & _).
  rewrite Hpage. split; reflexivity.
Defined.

(** ** The stock invariant through the tools *)

(** X26. The tools keep stock levels non-negative: from a store without
    negative stock, [createProduct] with a non-negative stock,
    [updateInventory] with a non-negative quantity (whatever the operation
    and whichever way the product is identified) and [toggleVisibility]
    each leave a store without negative stock, and the [newStock] that
    [updateInventory] reports is non-negative. *)
Theorem tools_keep_stock_nonnegative (st : Store.t) :
  stock_ok st ->
  (forall productData now rnd,
      0 <= Product.stock productData ->
      match Tools.createProduct productData now rnd st with
      | inr (_, st') => stock_ok st'
      | inl _ => True
      end) /\
  (forall identifier identifierType operation quantity reason now,
      0 <= quantity ->
      match Tools.updateInventory identifier identifierType operation
                                  quantity reason now st with
      | inr (r, st') => stock_ok st' /\ 0 <= Tools.newStock r
      | inl _ => True
      end) /\
  (forall id visible now,
      stock_ok (snd (Tools.toggleVisibility id visible now st))).
Proof.
  intros Hok. split; [|split].
  - intros d now rnd Hd. unfold Tools.createProduct.
    destruct (if JS.truthy (Product.sku d) then _ else _); [trivial|].
    destruct (Store.getProductByName st (Product.name d)); [trivial|].
    simpl. now apply stock_ok_load.
  - intros identifier identifierType operation quantity reason now Hq.
    unfold Tools.updateInventory.
    destruct (Tools.lookup st identifier identifierType) as [p|]; [|trivial].
    cbv zeta.
    pose proof (stock_ok_updateStock st (Product.id p)
                  (StockOperation.mk operation quantity reason) now
                  (fun _ => Hq) Hok) as Hok'.
    destruct (Store.updateStock (Product.id p) _ now st) as [[|] st'];
      simpl; [|trivial].
    simpl in Hok'. split; [exact Hok'|].
    destruct (Store.getProduct st' (Product.id p)) as [u|] eqn:Hu; [|lia].
    exact (stock_ok_lookup _ _ _ Hok' Hu).
  - intros id visible now.
    destruct (Store.getProduct st id) as [p|] eqn:Hp.
    + destruct (toggleVisibility_known st id p visible now Hp) as [Hs _].
      cbv zeta in Hs. rewrite Hs.
      match goal with
      | |- stock_ok (snd (Store.updateProduct id ?u now st)) =>
          exact (stock_ok_apply (OpUpdateProduct id u now) st I Hok)
      end.
    + unfold Tools.toggleVisibility. rewrite Hp. exact Hok.
Qed.

Lemma tools_keep_stock_nonnegative_witness :
  match Tools.updateInventory "Widget" "name" "subtract" 9 None 3
                              (Examples.holding [Examples.widget 5] []) with
  | inr (r, st') => stock_ok st' /\ 0 <= Tools.newStock r
  | inl _ => True
  end.
Proof.
  refine (proj1 (proj2 (tools_keep_stock_nonnegative
                          (Examples.holding [Examples.widget 5] []) _))
                "Widget" "name" "subtract" 9 None 3 _).
  - repeat constructor. simpl. lia.
  - lia.
Defined.
